(** * Zone-residency tracker of the SENSR sample client (resident_time.py)

    A shallow embedding of [CumulativeAvg], [ATM], [ResidentPerson] and the
    event handlers of [Bank], followed by the properties of the tracker.

    Conventions of the embedding.
    - Python objects that the handlers mutate are records; a method is a
      function from the old object to the new one.  Every [ATM] and every
      [ResidentPerson] is referenced from exactly one dictionary slot, so a
      mutation through [found_atm] / [found_obj] is a write to that slot.
    - Dictionaries are [gmap]s keyed by the integer ids.
    - [print] appends a structured [Line] to the console; the text layout of
      a line is presentation only.
    - An uncaught Python exception stops the handler and keeps every
      mutation made before it: handlers live in a state-and-exception monad.
    - The arithmetic of the running average is a parameter ([PyFloat]): the
      interpreter runs it on IEEE binary64 ([binary64]); the same code is
      also read over the rationals ([exact]). *)

From Stdlib Require Import ZArith QArith Qcanon Floats.
From stdpp Require Import gmap strings list fin_maps numbers.

Local Open Scope Z_scope.

(** ** Arithmetic of Python floats *)

(** The operations [CumulativeAvg] performs on floats: the literal [0.0],
    the coercion of an [int] operand in [int * float], [+], [*], and the
    true division [int / int]. *)
Class PyFloat (F : Type) := {
  f_zero : F;
  f_of_int : Z → F;
  f_add : F → F → F;
  f_mul : F → F → F;
  f_truediv : Z → Z → F
}.

(** Correctly rounded integer-to-binary64 conversion (round to nearest,
    ties to even), as [float(int)] does. *)
Definition float_of_int (z : Z) : float :=
  SF2Prim (binary_normalize prec emax z 0 false).

(** CPython's arithmetic: IEEE 754 binary64.  [int / int] is the correctly
    rounded quotient; for operands below 2^53 (any reachable count) it is the
    quotient of the two converted operands. *)
#[export] Instance binary64 : PyFloat float := {|
  f_zero := 0%float;
  f_of_int := float_of_int;
  f_add := PrimFloat.add;
  f_mul := PrimFloat.mul;
  f_truediv a b := PrimFloat.div (float_of_int a) (float_of_int b)
|}.

(** The same operations without rounding. *)
#[export] Instance exact : PyFloat Qc := {|
  f_zero := 0%Qc;
  f_of_int := Qc_of_Z;
  f_add := Qcplus;
  f_mul := Qcmult;
  f_truediv a b := (Qc_of_Z a / Qc_of_Z b)%Qc
|}.

(** ** class CumulativeAvg *)

Module CumulativeAvg.
Section Defs.
Context {F : Type} `{PyFloat F}.

(** [_count] starts at 0 and is only ever incremented. *)
Record t := { _avg : F; _count : nat }.

Definition init : t := {| _avg := f_zero; _count := 0 |}.

Definition _cumulative_average (prev_avg new_number : F) (list_length : Z) : F :=
  let old_weight := f_truediv (list_length - 1) list_length in
  let new_weight := f_truediv 1 list_length in
  f_add (f_mul prev_avg old_weight) (f_mul new_number new_weight).

Definition update (self : t) (value : F) : t :=
  let count := S (_count self) in
  {| _count := count;
     _avg := _cumulative_average (_avg self) value (Z.of_nat count) |}.

Definition get (self : t) : F := _avg self.

(** [update] applied to each value in order, from a fresh accumulator. *)
Definition observe_all (values : list F) : t :=
  fold_left update values init.
End Defs.
Arguments t : clear implicits.
End CumulativeAvg.

(** ** Messages of the SENSR output stream

    The protobuf schemas (sensr_proto) are outside the sources; the
    records below keep the fields that resident_time.py reads. *)

(** google.protobuf.Timestamp, a library type: seconds and nanoseconds since
    the epoch.  Its method [ToSeconds] returns the [seconds] field, so every
    duration the tracker computes is a difference of whole seconds. *)
Record Timestamp := { seconds : Z; nanos : Z }.

Definition ToSeconds (ts : Timestamp) : Z := seconds ts.

(** Modelled from the spec: the label enumeration [sensr_type.LabelType] is
    declared in the protobuf schema, not in the sources; the tracker only
    tells the "miscellaneous" category from every other label. *)
Inductive LabelType := LABEL_MISC | LABEL_OTHER (n : Z).

#[export] Instance LabelType_eq_dec : EqDecision LabelType.
Proof. solve_decision. Defined.

(** Modelled from the spec: [sensr_output.ZoneEvent.Type] is declared in the
    protobuf schema; the dispatch tells entry and exit from anything else. *)
Inductive ZoneEventType := ENTRY | EXIT | TYPE_OTHER.

Module Object.
(** One object snapshot: [obj.id], [obj.bbox.size.z], [obj.label] and
    [obj.zone_ids].  The height is the float that Python reads from the
    message: any binary64 value, infinities and NaN included. *)
Record t := { id : Z; bbox_size_z : float; label : LabelType; zone_ids : list Z }.
End Object.

Record ZoneEvent := {
  ze_type : ZoneEventType;      (* zone_event.type *)
  ze_id : Z;                    (* zone_event.id *)
  ze_object_id : Z;             (* zone_event.object.id *)
  ze_timestamp : Timestamp      (* zone_event.timestamp *)
}.

Record LosingEvent := { le_id : Z; le_timestamp : Timestamp }.

Record EventMessage := { zone : list ZoneEvent; losing : list LosingEvent }.

Record StreamMessage := { objects : list Object.t }.

(** [HasField('stream')] and [HasField('event')] are the [Some] cases. *)
Record OutputMessage := {
  timestamp : Timestamp;
  stream : option StreamMessage;
  event : option EventMessage
}.

(** ** Console and exceptions *)

(** The lines the tracker prints, with the values they interpolate. *)
Inductive Line (F : Type) :=
  | AtmMissing (obj_id atm_id : Z)      (* Error: .. is not exist in ATM .. *)
  | AtmAvg (atm_id : Z) (avg : F)       (* ATM(..) avg: ..s. *)
  | ObjResident (obj_id resident_time : Z) (avg : F) (starting_zone : string)
  | ObjMisc (obj_id : Z)                (* Obj(..) is misc. *)
  | ObjDoor (obj_id : Z)                (* Obj(..) is door. *)
  | TooLong (obj_id : Z).               (* Obj(..) lives in bank too long. *)
Arguments AtmMissing {F}.
Arguments AtmAvg {F}.
Arguments ObjResident {F}.
Arguments ObjMisc {F}.
Arguments ObjDoor {F}.
Arguments TooLong {F}.

Inductive Exn :=
  | AttributeError (attribute : string)  (* attribute access on None *)
  | KeyError (key : Z).                  (* missing dictionary key *)

(** A handler run: an exception or a value, and the state left behind. *)
Definition Py (S A : Type) : Type := S → (Exn + A) * S.

Section PyMonad.
Context {S : Type}.

Definition ret {A} (a : A) : Py S A := λ s, (inr a, s).

Definition bind {A B} (c : Py S A) (k : A → Py S B) : Py S B :=
  λ s, match c s with
       | (inr a, s') => k a s'
       | (inl e, s') => (inl e, s')
       end.

Definition raise {A} (e : Exn) : Py S A := λ s, (inl e, s).

Definition gets {A} (f : S → A) : Py S A := λ s, (inr (f s), s).

Definition modify (f : S → S) : Py S unit := λ s, (inr tt, f s).

(** [for x in xs: body x] *)
Fixpoint for_each {A} (xs : list A) (body : A → Py S unit) : Py S unit :=
  match xs with
  | [] => ret tt
  | x :: xs' => bind (body x) (λ _, for_each xs' body)
  end.
End PyMonad.

Declare Scope py_scope.
Delimit Scope py_scope with py.
Notation "x <- c ;; k" := (bind c (λ x, k))
  (at level 100, c at next level, right associativity) : py_scope.
Notation "c ;; k" := (bind c (λ _, k))
  (at level 100, right associativity) : py_scope.

(** ** class ATM *)

Module ATM.
Section Defs.
Context {F : Type} `{PyFloat F}.

Definition _time_to_assume_noisy_obj : Qc := Qc_of_Z 2.

Record t := {
  _residents : gmap Z Timestamp;
  _target_zone_id : Z;
  _resident_avg : CumulativeAvg.t F
}.

Definition init (target_zone_id : Z) : t :=
  {| _residents := ∅;
     _target_zone_id := target_zone_id;
     _resident_avg := CumulativeAvg.init |}.

Definition id (self : t) : Z := _target_zone_id self.

Definition get_avg_resident_time (self : t) : F :=
  CumulativeAvg.get (_resident_avg self).

Definition on_enter (self : t) (obj_id : Z) (timestamp : Timestamp) : t :=
  match _residents self !! obj_id with
  | None =>
      {| _residents := <[obj_id := timestamp]> (_residents self);
         _target_zone_id := _target_zone_id self;
         _resident_avg := _resident_avg self |}
  | Some _ => self
  end.

(** The comparison of the integer dwell with the float threshold is
    exact in Python. *)
Definition on_exit (self : t) (obj_id : Z) (timestamp : Timestamp)
  : t * list (Line F) :=
  let start_time := _residents self !! obj_id in
  match start_time with
  | Some start_time =>
      let resident_time := ToSeconds timestamp - ToSeconds start_time in
      let resident_avg :=
        if bool_decide (_time_to_assume_noisy_obj < Qc_of_Z resident_time)%Qc
        then CumulativeAvg.update (_resident_avg self) (f_of_int resident_time)
        else _resident_avg self in
      ({| _residents := delete obj_id (_residents self);
          _target_zone_id := _target_zone_id self;
          _resident_avg := resident_avg |}, [])
  | None => (self, [AtmMissing obj_id (id self)])
  end.
End Defs.
Arguments t : clear implicits.
End ATM.

(** ** class ResidentPerson *)

Module ResidentPerson.
Record t := {
  _id : Z;
  _enter_zone : option Z;
  _histories : list Object.t;
  _born_time : Timestamp
}.

(** Truth value of [self._enter_zone]: [None] and [0] are falsy. *)
Definition truthy (enter_zone : option Z) : bool :=
  match enter_zone with
  | None => false
  | Some zone_id => negb (zone_id =? 0)
  end.

(** Only [_enter_zone] is written: the first zone id of the snapshot, when
    the current value is falsy and the snapshot lies in some zone. *)
Definition _update_starting_zone (self : t) (obj : Object.t) : t :=
  if negb (truthy (_enter_zone self)) then
    match Object.zone_ids obj with
    | zone_id :: _ =>
        {| _id := _id self;
           _enter_zone := Some zone_id;
           _histories := _histories self;
           _born_time := _born_time self |}
    | [] => self
    end
  else self.

(** [__init__]; the two fields assigned after the call of
    [_update_starting_zone] are not read by it. *)
Definition init (id : Z) (obj : Object.t) (timestamp : Timestamp) : t :=
  _update_starting_zone
    {| _id := id;
       _enter_zone := None;
       _histories := [obj];
       _born_time := timestamp |} obj.

(** [a > b] on floats is [b <? a]: false whenever one side is NaN. *)
Definition is_door (self : t) : bool :=
  let min_height :=
    fold_left (λ min_height obj,
                 if (Object.bbox_size_z obj <? min_height)%float
                 then Object.bbox_size_z obj else min_height)
              (_histories self) 999%float in
  (2.5 <? min_height)%float.

(** The loop of [is_misc]: stops at the first other label. *)
Fixpoint is_misc_loop (histories : list Object.t) : bool :=
  match histories with
  | [] => true
  | obj :: rest =>
      if bool_decide (Object.label obj ≠ LABEL_MISC) then false
      else is_misc_loop rest
  end.

Definition is_misc (self : t) : bool := is_misc_loop (_histories self).

Definition starting_zone (self : t) : option Z := _enter_zone self.

Definition born_timestamp (self : t) : Timestamp := _born_time self.

Definition push_history (self : t) (obj : Object.t) : t :=
  _update_starting_zone
    {| _id := _id self;
       _enter_zone := _enter_zone self;
       _histories := _histories self ++ [obj];
       _born_time := _born_time self |} obj.
End ResidentPerson.

(** ** class Bank *)

Module Bank.
Section Defs.
Context {F : Type} `{PyFloat F}.

Definition _too_long_resident_time : Qc := (Qc_of_Z 60 * Qc_of_Z 60)%Qc.

Record t := {
  _residents : gmap Z ResidentPerson.t;
  _resident_avg : CumulativeAvg.t F;
  _ATMs : gmap Z (ATM.t F);
  _zone_info : gmap Z string
}.

(** [__init__], given the zone names fetched from the REST service. *)
Definition init (zone_info : gmap Z string) : t :=
  {| _residents := ∅;
     _resident_avg := CumulativeAvg.init;
     _ATMs := {[ 1007 := ATM.init 1007;
                 1008 := ATM.init 1008;
                 1009 := ATM.init 1009;
                 1010 := ATM.init 1010;
                 1011 := ATM.init 1011 ]};
     _zone_info := zone_info |}.

(** Field writes. *)
Definition set_residents (residents : gmap Z ResidentPerson.t) (self : t) : t :=
  {| _residents := residents;
     _resident_avg := _resident_avg self;
     _ATMs := _ATMs self;
     _zone_info := _zone_info self |}.

Definition set_resident_avg (avg : CumulativeAvg.t F) (self : t) : t :=
  {| _residents := _residents self;
     _resident_avg := avg;
     _ATMs := _ATMs self;
     _zone_info := _zone_info self |}.

Definition set_ATMs (atms : gmap Z (ATM.t F)) (self : t) : t :=
  {| _residents := _residents self;
     _resident_avg := _resident_avg self;
     _ATMs := atms;
     _zone_info := _zone_info self |}.

(** The running process: the [Bank] object and the console. *)
Record process := { self : t; stdout : list (Line F) }.

Abbreviation M := (Py process).

Definition read {A} (f : t → A) : M A := gets (λ p, f (self p)).

Definition write (f : t → t) : M unit :=
  modify (λ p, {| self := f (self p); stdout := stdout p |}).

Definition print (line : Line F) : M unit :=
  modify (λ p, {| self := self p; stdout := stdout p ++ [line] |}).

(** [del self._residents[obj_id]] *)
Definition del_resident (obj_id : Z) : M unit :=
  (residents <- read _residents ;;
   match residents !! obj_id with
   | Some _ => write (set_residents (delete obj_id residents))
   | None => raise (KeyError obj_id)
   end)%py.

Definition time_diff_in_s (time1 time2 : Timestamp) : Z :=
  ToSeconds time1 - ToSeconds time2.

Definition _zone_name (zone_id : option Z) : M string :=
  match zone_id with
  | Some zone_id =>
      (zone_info <- read _zone_info ;;
       match zone_info !! zone_id with
       | Some name => ret name
       | None => raise (KeyError zone_id)
       end)%py
  | None => ret "No Zone"%string
  end.

Definition _on_entry_event_handler (zone_id obj_id : Z) (timestamp : Timestamp)
  : M unit :=
  (atms <- read _ATMs ;;
   match atms !! zone_id with
   | Some found_atm =>
       write (set_ATMs (<[zone_id := ATM.on_enter found_atm obj_id timestamp]> atms))
   | None => ret tt
   end)%py.

Definition _on_exit_event_handler (zone_id obj_id : Z) (timestamp : Timestamp)
  : M unit :=
  (atms <- read _ATMs ;;
   match atms !! zone_id with
   | Some found_atm =>
       let '(found_atm, lines) := ATM.on_exit found_atm obj_id timestamp in
       write (set_ATMs (<[zone_id := found_atm]> atms)) ;;
       for_each lines print ;;
       print (AtmAvg (ATM.id found_atm) (ATM.get_avg_resident_time found_atm))
   | None => ret tt
   end)%py.

Definition _on_losing_event_handler (obj_id : Z) (timestamp : Timestamp)
  : M unit :=
  (resident <- read (λ b, _residents b !! obj_id) ;;
   match resident with
   | None => raise (AttributeError "is_misc")
   | Some resident =>
       (if negb (ResidentPerson.is_misc resident)
           && negb (ResidentPerson.is_door resident)
        then
          let resident_time :=
            time_diff_in_s timestamp (ResidentPerson.born_timestamp resident) in
          avg <- read _resident_avg ;;
          write (set_resident_avg (CumulativeAvg.update avg (f_of_int resident_time))) ;;
          avg <- read _resident_avg ;;
          name <- _zone_name (ResidentPerson.starting_zone resident) ;;
          print (ObjResident obj_id resident_time (CumulativeAvg.get avg) name)
        else
          print (if ResidentPerson.is_misc resident
                 then ObjMisc obj_id else ObjDoor obj_id)) ;;
       del_resident obj_id
   end)%py.

(** The body of the loop over [message.stream.objects]. *)
Definition observe (message_timestamp : Timestamp) (obj : Object.t) : M unit :=
  (found_obj <- read (λ b, _residents b !! Object.id obj) ;;
   match found_obj with
   | None =>
       residents <- read _residents ;;
       write (set_residents
                (<[Object.id obj :=
                     ResidentPerson.init (Object.id obj) obj message_timestamp]>
                   residents))
   | Some found_obj =>
       let found_obj := ResidentPerson.push_history found_obj obj in
       residents <- read _residents ;;
       write (set_residents (<[Object.id obj := found_obj]> residents)) ;;
       if bool_decide
            (_too_long_resident_time <
             Qc_of_Z (time_diff_in_s message_timestamp
                        (ResidentPerson.born_timestamp found_obj)))%Qc
       then
         print (TooLong (Object.id obj)) ;;
         del_resident (Object.id obj)
       else ret tt
   end)%py.

(** The body of the loop over [message.event.zone]. *)
Definition dispatch_zone_event (zone_event : ZoneEvent) : M unit :=
  match ze_type zone_event with
  | ENTRY =>
      _on_entry_event_handler
        (ze_id zone_event) (ze_object_id zone_event) (ze_timestamp zone_event)
  | EXIT =>
      _on_exit_event_handler
        (ze_id zone_event) (ze_object_id zone_event) (ze_timestamp zone_event)
  | TYPE_OTHER => ret tt
  end.

Definition _on_get_output_message (message : OutputMessage) : M unit :=
  (match stream message with
   | Some stream => for_each (objects stream) (observe (timestamp message))
   | None => ret tt
   end ;;
   match event message with
   | Some event =>
       for_each (zone event) dispatch_zone_event ;;
       for_each (losing event)
         (λ losing_event,
            _on_losing_event_handler (le_id losing_event) (le_timestamp losing_event))
   | None => ret tt
   end)%py.
End Defs.
Arguments t : clear implicits.
Arguments process : clear implicits.
End Bank.

(** ** class RESTAPI *)

Module RESTAPI.
(** The values that callers pass as keyword arguments. *)
Inductive value :=
  | VNone
  | VBool (b : bool)
  | VInt (n : Z)
  | VStr (s : string)
  | VDict (entries : list (string * Z)).    (* params={"zone-id": id} *)

(** Truth value of a keyword argument in [if] and in [.. if .. else ..]. *)
Definition truth (v : value) : bool :=
  match v with
  | VNone => false
  | VBool b => b
  | VInt n => negb (n =? 0)
  | VStr s => negb (String.eqb s "")
  | VDict entries => match entries with [] => false | _ :: _ => true end
  end.

(** [v == None] *)
Definition is_None (v : value) : bool :=
  match v with VNone => true | _ => false end.

(** [kargs.get(key)] *)
Definition get (kargs : gmap string value) (key : string) : value :=
  default VNone (kargs !! key).

(** What the handlers read of a [requests.Response]. *)
Record Response := { status_code : Z; text : string }.

(** The functions of the [requests] library, each from the url and the
    keyword arguments to the response of the server. *)
Record Requests := {
  put : string → gmap string value → Response;
  delete : string → gmap string value → Response;
  post : string → gmap string value → Response;
  get_ : string → gmap string value → Response    (* requests.get *)
}.

Record t := {
  _server_cert_file_path : value;
  _client_cert_file_path : string;
  _address : string
}.

Definition init (address : string) : t :=
  {| _server_cert_file_path := VBool false;
     _client_cert_file_path := "";
     _address := address |}.

(** A call returns a response or ends the process through [sys.exit]. *)
Inductive ending :=
  | Returned (response : Response)
  | SystemExit (code : Z).

Record outcome := { printed : list string; ended : ending }.

(** The lines printed, and the exit code when the process is ended. *)
Definition _response_checker (self : t) (response : Response)
  : list string * option Z :=
  if negb (status_code response =? 200)
  then ([text response; "##Fail##"%string], Some 1)
  else ([], None).

Definition _handle_request (self : t) (resource : string)
    (rest_cmd : string → gmap string value → Response)
    (kargs : gmap string value) : outcome :=
  let ssl := if is_None (get kargs "ssl") then VBool false else get kargs "ssl" in
  let kargs := base.delete "ssl"%string kargs in
  let check_response :=
    if is_None (get kargs "check_response") then VBool true
    else get kargs "check_response" in
  let kargs := base.delete "check_response"%string kargs in
  let protocol := if truth ssl then "https"%string else "http"%string in
  let url := (protocol +:+ "://" +:+ _address self +:+ ":9080/" +:+ resource)%string in
  let response := rest_cmd url kargs in
  if truth check_response then
    match _response_checker self response with
    | (lines, Some code) => {| printed := lines; ended := SystemExit code |}
    | (lines, None) => {| printed := lines; ended := Returned response |}
    end
  else {| printed := []; ended := Returned response |}.

Definition put_request (requests : Requests) (self : t) (resource : string)
    (kargs : gmap string value) : outcome :=
  let kargs := <["verify"%string := _server_cert_file_path self]> kargs in
  _handle_request self resource (put requests) kargs.

Definition delete_request (requests : Requests) (self : t) (resource : string)
    (kargs : gmap string value) : outcome :=
  let kargs := <["verify"%string := _server_cert_file_path self]> kargs in
  _handle_request self resource (delete requests) kargs.

Definition post_request (requests : Requests) (self : t) (resource : string)
    (kargs : gmap string value) : outcome :=
  let kargs := <["verify"%string := _server_cert_file_path self]> kargs in
  _handle_request self resource (post requests) kargs.

Definition get_request (requests : Requests) (self : t) (resource : string)
    (kargs : gmap string value) : outcome :=
  let kargs := <["verify"%string := _server_cert_file_path self]> kargs in
  _handle_request self resource (get_ requests) kargs.
End RESTAPI.

(** * Vocabulary of the properties *)

(** The states of the tracker: the state that [__init__] builds, and the
    state that each delivered message leaves, whether its handler returned
    or raised. *)
Inductive reachable {F : Type} `{PyFloat F} (zone_info : gmap Z string)
  : Bank.process F → Prop :=
  | reachable_init :
      reachable zone_info {| Bank.self := Bank.init zone_info; Bank.stdout := [] |}
  | reachable_message (p : Bank.process F) (message : OutputMessage) :
      reachable zone_info p →
      reachable zone_info (Bank._on_get_output_message message p).2.

(** The zones that [__init__] watches. *)
Definition watched_zones : gset Z := {[ 1007; 1008; 1009; 1010; 1011 ]}.

(** Every tracker and every record is stored under its own id, every
    record has a history, and the watched zones and the zone names are those
    of the start. *)
Definition well_keyed {F : Type} (zone_info : gmap Z string) (bank : Bank.t F)
  : Prop :=
  dom (Bank._ATMs bank) = watched_zones ∧
  (∀ zone_id atm, Bank._ATMs bank !! zone_id = Some atm → ATM.id atm = zone_id) ∧
  (∀ obj_id resident,
     Bank._residents bank !! obj_id = Some resident →
     ResidentPerson._id resident = obj_id ∧
     ResidentPerson._histories resident ≠ []) ∧
  Bank._zone_info bank = zone_info.

(** The first zone id of each snapshot that lies in some zone. *)
Definition leading_zones (histories : list Object.t) : list Z :=
  omap (λ obj, head (Object.zone_ids obj)) histories.

(** The first non-zero zone id of [zones]; without one, the last of them. *)
Definition first_nonzero_or_last (zones : list Z) : option Z :=
  match find (λ zone_id, negb (zone_id =? 0)) zones with
  | Some zone_id => Some zone_id
  | None => list.last zones
  end.

(** The arithmetic mean [(v1 + ... + vn) / n] of integer observations, in
    the arithmetic of the accumulator. *)
Definition arithmetic_mean {F : Type} `{PyFloat F} (values : list Z) : F :=
  f_truediv (foldr Z.add 0 values) (Z.of_nat (length values)).

Definition Qc_sum (values : list Qc) : Qc := foldr Qcplus 0%Qc values.

(** The bounding-box heights of the snapshots of a record, oldest first. *)
Definition heights (histories : list Object.t) : list float :=
  Object.bbox_size_z <$> histories.

(** [m] is the least of the numbers in [hs]: it is one of them, it is not
    NaN, and no number of [hs] is below it. *)
Definition is_minimum (m : float) (hs : list float) : Prop :=
  m ∈ hs ∧ PrimFloat.is_nan m = false ∧
  ∀ h, h ∈ hs → PrimFloat.is_nan h = false → (h <? m)%float = false.

(** The loop of [is_door], from the running minimum [acc]. *)
Definition min_scan (histories : list Object.t) (acc : float) : float :=
  fold_left (λ min_height obj,
               if (Object.bbox_size_z obj <? min_height)%float
               then Object.bbox_size_z obj else min_height)
            histories acc.

(** The time from [earlier] to [later] in seconds, nanoseconds counted. *)
Definition elapsed (later earlier : Timestamp) : Qc :=
  (Qc_of_Z (seconds later - seconds earlier)
   + Qc_of_Z (nanos later - nanos earlier) / Qc_of_Z 1000000000)%Qc.

(** The starting zone after snapshots with the leading zone ids [zones],
    from the starting zone [current]. *)
Definition settle (current : option Z) (zones : list Z) : option Z :=
  if ResidentPerson.truthy current then current
  else match find (λ zone_id, negb (zone_id =? 0)) zones with
       | Some zone_id => Some zone_id
       | None => match list.last zones with
                 | Some zone_id => Some zone_id
                 | None => current
                 end
       end.

(** The request goes over https: the caller passed a true [ssl]. *)
Definition ssl_on (kargs : gmap string RESTAPI.value) : bool :=
  match kargs !! "ssl"%string with
  | Some v => RESTAPI.truth v
  | None => false
  end.

(** The response is checked: the caller passed no [check_response], or
    [None], or a true value. *)
Definition checked (kargs : gmap string RESTAPI.value) : bool :=
  match kargs !! "check_response"%string with
  | None | Some RESTAPI.VNone => true
  | Some v => RESTAPI.truth v
  end.

(** The message without its loss events. *)
Definition without_losing (message : OutputMessage) : OutputMessage :=
  {| timestamp := timestamp message;
     stream := stream message;
     event := (λ ev, {| zone := zone ev; losing := [] |}) <$> event message |}.

(** The zone-name lookup succeeds on [zone]: it is unset, or the zone-name
    map resolves it. *)
Definition zone_resolved {F : Type} (bank : Bank.t F) (zone : option Z) : Prop :=
  match zone with
  | None => True
  | Some zone_id => is_Some (Bank._zone_info bank !! zone_id)
  end.

(** Case analysis on the comparison of two specified floats. *)
Ltac sf_compare :=
  unfold SFltb, SFeqb, SFcompare in *;
  repeat match goal with
         | s : bool |- _ => destruct s
         end;
  change (Pos.compare_cont Eq) with Pos.compare in *;
  repeat match goal with
         | |- context [Z.compare ?x ?y] => destruct (Z.compare_spec x y)
         | H : context [Z.compare ?x ?y] |- _ => destruct (Z.compare_spec x y)
         | |- context [Pos.compare ?x ?y] => destruct (Pos.compare_spec x y)
         | H : context [Pos.compare ?x ?y] |- _ => destruct (Pos.compare_spec x y)
         end;
  cbn in *; try congruence; try lia.

Ltac py_run :=
  unfold Bank.del_resident, Bank._zone_name, Bank.read, Bank.write, Bank.print,
    bind, ret, raise, gets, modify;
  cbn [Bank.self Bank.stdout Bank._residents Bank._resident_avg Bank._ATMs
       Bank._zone_info Bank.set_residents Bank.set_resident_avg Bank.set_ATMs
       fst snd].

(** * Sample runs

    Concrete timestamps, snapshots and tracker states, on the interpreter's
    arithmetic. *)

Module Sample.
Definition at_second (s : Z) : Timestamp := {| seconds := s; nanos := 0 |}.

(** A person-sized, person-labelled snapshot of object [id] in [zones]. *)
Definition person (id : Z) (zones : list Z) : Object.t :=
  {| Object.id := id;
     Object.bbox_size_z := 1.75%float;
     Object.label := LABEL_OTHER 2;
     Object.zone_ids := zones |}.

(** The zone names fetched at start-up: zone 5 is not among them. *)
Definition zone_names : gmap Z string :=
  {[ 1007 := "ATM 1"%string; 7 := "Lobby"%string ]}.

Definition bank : Bank.t float := Bank.init zone_names.

Definition start : Bank.process float :=
  {| Bank.self := bank; Bank.stdout := [] |}.

(** ATM 1007 with object 5 pending since second 0. *)
Definition atm_pending : ATM.t float :=
  ATM.on_enter (ATM.init 1007) 5 (at_second 0).

(** Object 1, first seen at second 10 in the lobby (a named zone), in the
    unnamed zone 5, and in zone 0. *)
Definition lobby_record : ResidentPerson.t :=
  ResidentPerson.init 1 (person 1 [7]) (at_second 10).

Definition stray_record : ResidentPerson.t :=
  ResidentPerson.init 1 (person 1 [5]) (at_second 10).

Definition bank_with (resident : ResidentPerson.t) : Bank.process float :=
  {| Bank.self := Bank.set_residents {[ 1 := resident ]} bank;
     Bank.stdout := [] |}.

Definition stream_message (s : Z) (objs : list Object.t) : OutputMessage :=
  {| timestamp := at_second s;
     stream := Some {| objects := objs |};
     event := None |}.

Definition zone_message (ts : Timestamp) (type : ZoneEventType)
    (zone_id obj_id : Z) : OutputMessage :=
  {| timestamp := ts;
     stream := None;
     event := Some {| zone := [{| ze_type := type; ze_id := zone_id;
                                  ze_object_id := obj_id;
                                  ze_timestamp := ts |}];
                      losing := [] |} |}.

Definition losing_message (s : Z) (obj_id : Z) : OutputMessage :=
  {| timestamp := at_second s;
     stream := None;
     event := Some {| zone := [];
                      losing := [{| le_id := obj_id;
                                    le_timestamp := at_second s |}] |} |}.

(** The messages delivered in order, up to the first uncaught exception. *)
Definition deliver (messages : list OutputMessage)
  : Py (Bank.process float) unit :=
  for_each messages Bank._on_get_output_message.

(** The average of ATM [zone_id] after a run. *)
Definition atm_avg (zone_id : Z) (run : (Exn + unit) * Bank.process float)
  : option float :=
  ATM.get_avg_resident_time <$> Bank._ATMs (Bank.self run.2) !! zone_id.

(** The objects pending at ATM [zone_id] after a run. *)
Definition atm_pending_ids (zone_id : Z) (run : (Exn + unit) * Bank.process float)
  : option (list Z) :=
  (λ atm, (map_to_list (ATM._residents atm)).*1)
    <$> Bank._ATMs (Bank.self run.2) !! zone_id.

Definition at_time (s n : Z) : Timestamp := {| seconds := s; nanos := n |}.

(** ATM 1007 with object 5 pending since [entry]. *)
Definition atm_pending_since (entry : Timestamp) : ATM.t float :=
  ATM.on_enter (ATM.init 1007) 5 entry.

(** A snapshot of object [id] in the lobby, of the given height and label. *)
Definition box (id : Z) (height : float) (label : LabelType) : Object.t :=
  {| Object.id := id;
     Object.bbox_size_z := height;
     Object.label := label;
     Object.zone_ids := [7] |}.

(** Object 1, first seen in the lobby at 10.9 s. *)
Definition late_record : ResidentPerson.t :=
  ResidentPerson.init 1 (person 1 [7]) (at_time 10 900000000).

(** Object 2, seen once, with a height that is not a number. *)
Definition glitch_record : ResidentPerson.t :=
  ResidentPerson.init 2 (box 2 nan (LABEL_OTHER 2)) (at_second 10).

(** Object 3, seen with the heights 3.0, NaN and 2.75. *)
Definition mixed_record : ResidentPerson.t :=
  fold_left ResidentPerson.push_history
    [box 3 nan LABEL_MISC; box 3 2.75%float (LABEL_OTHER 2)]
    (ResidentPerson.init 3 (box 3 3%float LABEL_MISC) (at_second 10)).
End Sample.

(** A server that knows one resource, reached over http only. *)
Module SampleRest.
Definition answer (url : string) (kargs : gmap string RESTAPI.value)
  : RESTAPI.Response :=
  if String.eqb url "http://localhost:9080/settings/zone"
  then {| RESTAPI.status_code := 200; RESTAPI.text := "[1007]" |}
  else {| RESTAPI.status_code := 404; RESTAPI.text := "Not Found" |}.

Definition library : RESTAPI.Requests :=
  {| RESTAPI.put := answer; RESTAPI.delete := answer;
     RESTAPI.post := answer; RESTAPI.get_ := answer |}.
End SampleRest.

(** * Properties *)

(** ** The running average *)

Example avg_5_7 :
  CumulativeAvg.get (CumulativeAvg.observe_all (f_of_int <$> [5; 7])) = 6%float.
Proof. reflexivity. Qed.

Section ExactAverage.
Local Open Scope Qc_scope.
Import CumulativeAvg.

Lemma Qc_of_nat_S (n : nat) :
  Qc_of_Z (Z.of_nat (S n)) = Qc_of_Z (Z.of_nat n) + 1.
Proof. by rewrite Nat2Z.inj_succ, <-Z.add_1_r, Z2Qc_inj_add, Z2Qc_inj_1. Qed.

Lemma Qc_of_nat_S_ne_0 (n : nat) : Qc_of_Z (Z.of_nat (S n)) ≠ 0.
Proof.
  rewrite <-Z2Qc_inj_0. intros Heq%Z2Qc_inj. lia.
Qed.

(** One update keeps [mean * count] equal to the total observed. *)
Lemma exact_update_total (a : t Qc) (v : Qc) :
  _avg (update a v) * Qc_of_Z (Z.of_nat (_count (update a v)))
  = _avg a * Qc_of_Z (Z.of_nat (_count a)) + v.
Proof.
  destruct a as [m n]. unfold update, _cumulative_average. cbn -[Z.of_nat].
  replace (Z.of_nat (S n) - 1)%Z with (Z.of_nat n) by lia.
  pose proof (Qc_of_nat_S_ne_0 n) as Hne.
  rewrite Qc_of_nat_S in *. rewrite Z2Qc_inj_1.
  field. exact Hne.
Qed.

Lemma exact_fold_total (values : list Qc) (a : t Qc) :
  let r := fold_left update values a in
  _count r = (_count a + length values)%nat ∧
  _avg r * Qc_of_Z (Z.of_nat (_count r))
  = _avg a * Qc_of_Z (Z.of_nat (_count a)) + Qc_sum values.
Proof.
  revert a. induction values as [|v values IH]; intros a;
    cbn [fold_left length]; unfold Qc_sum; cbn [foldr].
  - split; [lia | ring].
  - destruct (IH (update a v)) as [Hc Ht]. split.
    + rewrite Hc. cbn [update _count]. lia.
    + rewrite Ht, exact_update_total. unfold Qc_sum. ring.
Qed.

Lemma exact_observe_all (values : list Qc) :
  values ≠ [] →
  _count (observe_all values) = length values ∧
  get (observe_all values) = Qc_sum values / Qc_of_Z (Z.of_nat (length values)).
Proof.
  intros Hne. destruct (exact_fold_total values init) as [Hc Ht].
  fold (observe_all values) in Hc, Ht.
  change (_count init) with 0%nat in Hc, Ht.
  change (_avg init) with 0 in Ht.
  rewrite Nat.add_0_l in Hc. split; [done|].
  unfold get. rewrite Hc in Ht.
  destruct values as [|v values]; [done|]. cbn [length] in *.
  pose proof (Qc_of_nat_S_ne_0 (length values)) as Hn.
  rewrite Qcmult_0_l, Qcplus_0_l in Ht. rewrite <-Ht.
  field. exact Hn.
Qed.

Lemma Qc_sum_of_ints (values : list Z) :
  Qc_sum (Qc_of_Z <$> values) = Qc_of_Z (foldr Z.add 0%Z values).
Proof.
  induction values as [|v values IH]; cbn.
  - by rewrite Z2Qc_inj_0.
  - unfold Qc_sum in IH. by rewrite IH, Z2Qc_inj_add.
Qed.

Lemma sum_Permutation (values values' : list Z) :
  values ≡ₚ values' → foldr Z.add 0%Z values = foldr Z.add 0%Z values'.
Proof. induction 1; cbn; lia. Qed.
End ExactAverage.

(** The count is the number of observations, whatever the arithmetic. *)
Lemma count_fold_update {F : Type} `{PyFloat F}
    (values : list F) (a : CumulativeAvg.t F) :
  CumulativeAvg._count (fold_left CumulativeAvg.update values a)
  = (CumulativeAvg._count a + length values)%nat.
Proof.
  revert a. induction values as [|v values IH]; intros a; cbn [fold_left length].
  - lia.
  - rewrite IH. cbn [CumulativeAvg.update CumulativeAvg._count]. lia.
Qed.

Lemma Qc_sum_Permutation (values values' : list Qc) :
  values ≡ₚ values' → Qc_sum values = Qc_sum values'.
Proof.
  unfold Qc_sum. induction 1 as [|x l l' _ IH|x y l|l l' l'' _ IH1 _ IH2]; cbn.
  - done.
  - by rewrite IH.
  - ring.
  - by rewrite IH1.
Qed.

(** Over the rationals, integer observations in any order end with their
    arithmetic mean. *)
Lemma exact_running_average_of_ints (values values' : list Z) :
  values ≠ [] →
  values ≡ₚ values' →
  CumulativeAvg.get (CumulativeAvg.observe_all (H:=exact) (f_of_int <$> values'))
  = arithmetic_mean values.
Proof.
  intros Hne Hperm.
  assert (Hne' : Qc_of_Z <$> values' ≠ []).
  { destruct values'; [|done]. apply Permutation_nil_r in Hperm. done. }
  destruct (exact_observe_all _ Hne') as [_ Hg]. cbn [f_of_int exact].
  rewrite Hg, length_fmap, Qc_sum_of_ints.
  unfold arithmetic_mean. cbn [f_truediv exact].
  by rewrite (sum_Permutation _ _ Hperm), (Permutation_length Hperm).
Qed.


(** On binary64 the order of the observations shows in the last bit. *)
Example binary64_3_4_5 :
  CumulativeAvg.get (CumulativeAvg.observe_all (f_of_int <$> [3; 4; 5]))
  = 0x1.fffffffffffffp+1%float.   (* 3.9999999999999996 *)
Proof. reflexivity. Qed.

Example binary64_5_4_3 :
  CumulativeAvg.get (CumulativeAvg.observe_all (f_of_int <$> [5; 4; 3]))
  = 4%float.
Proof. reflexivity. Qed.

(** Twelve observations of 7 end below 7. *)
Example binary64_constant_drift :
  CumulativeAvg.get (CumulativeAvg.observe_all (f_of_int <$> replicate 12 7))
  = 0x1.bfffffffffffep+2%float.   (* 6.9999999999999982 *)
Proof. reflexivity. Qed.


(** ** The zone tracker *)

Section ZoneTracker.
Context {F : Type} `{PyFloat F}.

(** An update always shows in the count. *)
Lemma update_ne (avg : CumulativeAvg.t F) (value : F) :
  CumulativeAvg.update avg value ≠ avg.
Proof.
  intros Heq. apply (f_equal CumulativeAvg._count) in Heq. cbn in Heq. lia.
Qed.

Lemma noisy_threshold (resident_time : Z) :
  (ATM._time_to_assume_noisy_obj < Qc_of_Z resident_time)%Qc ↔ 2 < resident_time.
Proof. unfold ATM._time_to_assume_noisy_obj. by rewrite <-Z2Qc_inj_lt. Qed.
End ZoneTracker.

(** C1 (as amended).  A matched exit computes the dwell as the difference
    of the whole seconds of the two timestamps, their nanoseconds dropped;
    it feeds this dwell to the tracker's running average exactly when it
    exceeds 2.0, and removes the object id from the pending map in both
    cases; nothing is printed and the zone id is kept. *)
Theorem on_exit_matched {F : Type} `{PyFloat F}
    (atm : ATM.t F) (obj_id : Z) (timestamp entry_time : Timestamp) :
  ATM._residents atm !! obj_id = Some entry_time →
  let dwell := seconds timestamp - seconds entry_time in
  let atm' := (ATM.on_exit atm obj_id timestamp).1 in
  (2 < dwell →
   ATM._resident_avg atm'
   = CumulativeAvg.update (ATM._resident_avg atm) (f_of_int dwell)) ∧
  (¬ 2 < dwell → ATM._resident_avg atm' = ATM._resident_avg atm) ∧
  (ATM._resident_avg atm' ≠ ATM._resident_avg atm ↔ 2 < dwell) ∧
  ATM._residents atm' = delete obj_id (ATM._residents atm) ∧
  ATM._residents atm' !! obj_id = None ∧
  ATM.id atm' = ATM.id atm ∧
  (ATM.on_exit atm obj_id timestamp).2 = [].
Proof.
  intros Hentry dwell atm'. subst atm'. unfold ATM.on_exit.
  rewrite Hentry. change (ToSeconds timestamp - ToSeconds entry_time) with dwell.
  cbn [fst snd ATM._resident_avg ATM._residents ATM.id ATM._target_zone_id].
  case_bool_decide as Hcmp; rewrite noisy_threshold in Hcmp.
  - repeat split; try done.
    + intros _. apply update_ne.
    + apply lookup_delete_eq.
  - repeat split; try done.
    apply lookup_delete_eq.
Qed.

(** C7.  A second entry event for an object that is still pending changes
    nothing: the tracker, and with it the recorded entry time, is as before. *)
Theorem on_enter_idempotent {F : Type} `{PyFloat F}
    (atm : ATM.t F) (obj_id : Z) (timestamp entry_time : Timestamp) :
  ATM._residents atm !! obj_id = Some entry_time →
  ATM.on_enter atm obj_id timestamp = atm ∧
  ATM._residents (ATM.on_enter atm obj_id timestamp) !! obj_id = Some entry_time.
Proof.
  intros Hentry. unfold ATM.on_enter. by rewrite Hentry.
Qed.

(** A first entry event records its timestamp, so that entering twice is
    the same as entering once. *)
Lemma on_enter_twice {F : Type} `{PyFloat F}
    (atm : ATM.t F) (obj_id : Z) (t1 t2 : Timestamp) :
  ATM.on_enter (ATM.on_enter atm obj_id t1) obj_id t2 = ATM.on_enter atm obj_id t1.
Proof.
  unfold ATM.on_enter at 2 3.
  destruct (ATM._residents atm !! obj_id) as [t0|] eqn:Hentry.
  - unfold ATM.on_enter. by rewrite Hentry.
  - unfold ATM.on_enter. cbn. by rewrite lookup_insert_eq.
Qed.

(** C8.  An exit for an object with no pending entry prints the
    missing-entry line and returns the tracker as it was. *)
Theorem on_exit_missing_entry {F : Type} `{PyFloat F}
    (atm : ATM.t F) (obj_id : Z) (timestamp : Timestamp) :
  ATM._residents atm !! obj_id = None →
  ATM.on_exit atm obj_id timestamp = (atm, [AtmMissing obj_id (ATM.id atm)]).
Proof.
  intros Hentry. unfold ATM.on_exit. by rewrite Hentry.
Qed.

(** ** The residency record *)

(** Order of binary64 floats, from the specification of the comparison. *)
Section FloatOrder.
Local Open Scope float_scope.

Lemma SFltb_neg_trans (a b c : spec_float) :
  b ≠ S754_nan → SFltb a b = false → SFltb b c = false → SFltb a c = false.
Proof.
  destruct a as [sa|sa| |sa ma ea], b as [sb|sb| |sb mb eb],
    c as [sc|sc| |sc mc ec]; intros Hb Hab Hbc; try done; sf_compare.
Qed.

Lemma SFltb_asym (a b : spec_float) : SFltb a b = true → SFltb b a = false.
Proof.
  destruct a as [sa|sa| |sa ma ea], b as [sb|sb| |sb mb eb]; intros Hab;
    try done; sf_compare.
Qed.

Lemma SFltb_irrefl (a : spec_float) : SFltb a a = false.
Proof. destruct a as [sa|sa| |sa ma ea]; try done; sf_compare. Qed.

Lemma SFltb_numbers (a b : spec_float) :
  SFltb a b = true → a ≠ S754_nan ∧ b ≠ S754_nan.
Proof.
  by destruct a as [sa|sa| |sa ma ea], b as [sb|sb| |sb mb eb].
Qed.

Lemma SFeqb_nan (a : spec_float) : SFeqb a a = false ↔ a = S754_nan.
Proof. destruct a as [sa|sa| |sa ma ea]; split; intros Ha; try done; sf_compare. Qed.

Lemma is_number_spec (x : float) :
  PrimFloat.is_nan x = false ↔ Prim2SF x ≠ S754_nan.
Proof.
  unfold PrimFloat.is_nan. rewrite FloatAxioms.eqb_spec, negb_false_iff.
  rewrite <-SFeqb_nan. by destruct (SFeqb (Prim2SF x) (Prim2SF x)).
Qed.

Lemma ltb_irrefl (x : float) : (x <? x) = false.
Proof. rewrite ltb_spec. apply SFltb_irrefl. Qed.

Lemma ltb_asym (x y : float) : (x <? y) = true → (y <? x) = false.
Proof. rewrite !ltb_spec. apply SFltb_asym. Qed.

Lemma ltb_numbers (x y : float) :
  (x <? y) = true → PrimFloat.is_nan x = false ∧ PrimFloat.is_nan y = false.
Proof. rewrite ltb_spec, !is_number_spec. apply SFltb_numbers. Qed.

(** [x >= y >= z] with [y] a number gives [x >= z], NaN sides included. *)
Lemma ltb_neg_trans (x y z : float) :
  PrimFloat.is_nan y = false →
  (x <? y) = false → (y <? z) = false → (x <? z) = false.
Proof. rewrite !ltb_spec, is_number_spec. apply SFltb_neg_trans. Qed.

(** [x < y <= z] with [z] a number gives [x < z]. *)
Lemma ltb_le_trans (x y z : float) :
  (x <? y) = true → (z <? y) = false → PrimFloat.is_nan z = false →
  (x <? z) = true.
Proof.
  intros Hxy Hzy Hz. destruct (x <? z) eqn:Hxz; [done|].
  by rewrite (ltb_neg_trans x z y Hz Hxz Hzy) in Hxy.
Qed.

Lemma ltb_trans (x y z : float) :
  (x <? y) = true → (y <? z) = true → (x <? z) = true.
Proof.
  intros Hxy Hyz. destruct (ltb_numbers _ _ Hyz) as [Hy Hz].
  destruct (x <? z) eqn:Hxz; [done|].
  pose proof (ltb_asym _ _ Hyz) as Hzy.
  by rewrite (ltb_neg_trans x z y Hz Hxz Hzy) in Hxy.
Qed.
End FloatOrder.

Section Classification.
Local Open Scope float_scope.
Import ResidentPerson.

Lemma min_scan_cons (obj : Object.t) (histories : list Object.t) (acc : float) :
  min_scan (obj :: histories) acc
  = min_scan histories
      (if Object.bbox_size_z obj <? acc then Object.bbox_size_z obj else acc).
Proof. reflexivity. Qed.

(** The scan ends on a number that is at most the start value and that no
    height is below; it is the start value or one of the heights. *)
Lemma min_scan_spec (histories : list Object.t) (acc : float) :
  PrimFloat.is_nan acc = false →
  PrimFloat.is_nan (min_scan histories acc) = false ∧
  (acc <? min_scan histories acc) = false ∧
  (∀ h, h ∈ heights histories → (h <? min_scan histories acc) = false) ∧
  (min_scan histories acc = acc ∨ min_scan histories acc ∈ heights histories).
Proof.
  revert acc. induction histories as [|obj histories IH]; intros acc Hacc.
  - cbn. split; [done|]. split; [apply ltb_irrefl|]. split; [|by left].
    intros h Hin. by apply elem_of_nil in Hin.
  - rewrite min_scan_cons.
    change (heights (obj :: histories))
      with (Object.bbox_size_z obj :: heights histories).
    set (z := Object.bbox_size_z obj).
    set (next := if z <? acc then z else acc).
    assert (PrimFloat.is_nan next = false ∧ (acc <? next) = false ∧
            (z <? next) = false) as (Hnext & Hacc_next & Hz_next).
    { subst next. destruct (z <? acc) eqn:Hlt.
      - destruct (ltb_numbers _ _ Hlt) as [Hz _].
        split; [done|]. split; [by apply ltb_asym | apply ltb_irrefl].
      - split; [done|]. split; [apply ltb_irrefl | done]. }
    destruct (IH next Hnext) as (Hnum & Hle & Hall & Hin).
    split; [done|]. split; [by apply (ltb_neg_trans acc next)|]. split.
    + intros h [->|Hh]%elem_of_cons; [|by apply Hall].
      by apply (ltb_neg_trans z next).
    + destruct Hin as [Heq|Hin]; [|right; by apply list_elem_of_further].
      rewrite Heq. subst next. destruct (z <? acc); [right|by left].
      apply list_elem_of_here.
Qed.

Lemma is_door_numbers (self : t) :
  is_door self = true ↔
  ∀ h, h ∈ heights (_histories self) →
       PrimFloat.is_nan h = true ∨ (2.5 <? h) = true.
Proof.
  unfold is_door. fold (min_scan (_histories self) 999).
  destruct (min_scan_spec (_histories self) 999 eq_refl)
    as (Hnum & Hle & Hall & Hin).
  split.
  - intros Hdoor h Hh. destruct (PrimFloat.is_nan h) eqn:Hnan; [by left|].
    right. eapply ltb_le_trans; [exact Hdoor | by apply Hall | done].
  - intros Hhigh. destruct Hin as [->|Hin]; [done|].
    destruct (Hhigh _ Hin) as [Hnan|Hgt]; [|done]. by rewrite Hnan in Hnum.
Qed.

Lemma minimum_exists (hs : list float) :
  (∃ h, h ∈ hs ∧ PrimFloat.is_nan h = false) → ∃ m, is_minimum m hs.
Proof.
  induction hs as [|h hs IH]; intros (x & Hx & Hnum).
  - by apply elem_of_nil in Hx.
  - destruct (decide (Exists (λ y, PrimFloat.is_nan y = false) hs)) as [Hsome|Hnone].
    + apply list.Exists_exists in Hsome. destruct (IH Hsome) as (m & Hm & Hmnum & Hmin).
      destruct (h <? m) eqn:Hlt.
      * exists h. destruct (ltb_numbers _ _ Hlt) as [Hh _].
        split; [apply list_elem_of_here|]. split; [done|].
        intros y [->|Hy]%elem_of_cons Hynum; [apply ltb_irrefl|].
        apply (ltb_neg_trans y m h Hmnum); [by apply Hmin | by apply ltb_asym].
      * exists m. split; [by apply list_elem_of_further|]. split; [done|].
        intros y [->|Hy]%elem_of_cons Hynum; [done | by apply Hmin].
    + apply elem_of_cons in Hx as [->|Hx].
      * exists h. split; [apply list_elem_of_here|]. split; [done|].
        intros y [->|Hy]%elem_of_cons Hynum; [apply ltb_irrefl|].
        destruct Hnone. apply list.Exists_exists. eauto.
      * destruct Hnone. apply list.Exists_exists. eauto.
Qed.

Lemma is_door_minimum (self : t) (m : float) :
  is_minimum m (heights (_histories self)) →
  is_door self = true ↔ (2.5 <? m) = true.
Proof.
  intros (Hm & Hnum & Hmin). rewrite is_door_numbers. split.
  - intros Hhigh. destruct (Hhigh _ Hm) as [Hnan|Hgt]; [|done].
    by rewrite Hnan in Hnum.
  - intros Hgt h Hh. destruct (PrimFloat.is_nan h) eqn:Hnan; [by left|].
    right. eapply ltb_le_trans; [exact Hgt | by apply Hmin | done].
Qed.

Lemma is_misc_loop_Forall (histories : list Object.t) :
  is_misc_loop histories = true ↔
  Forall (λ obj, Object.label obj = LABEL_MISC) histories.
Proof.
  induction histories as [|obj histories IH]; cbn.
  - split; [constructor | done].
  - case_bool_decide as Hlabel.
    + split; [done|]. intros Hall. by inversion Hall.
    + split.
      * intros Hrest. constructor; [done | by apply IH].
      * intros Hall. inversion Hall; subst. by apply IH.
Qed.
End Classification.

(** C9 (as amended).  [is_door] holds exactly when every bounding-box
    height of the history that is a number exceeds 2.5: NaN heights are
    skipped.  So when some height is a number, the least of these numbers
    exists and [is_door] holds exactly when it exceeds 2.5; and when every
    height is NaN, [is_door] holds.  [is_misc] holds exactly when every
    snapshot is labelled miscellaneous. *)
Theorem classify_door_misc (resident : ResidentPerson.t) :
  (ResidentPerson.is_door resident = true ↔
   ∀ h, h ∈ heights (ResidentPerson._histories resident) →
        PrimFloat.is_nan h = true ∨ (2.5 <? h)%float = true) ∧
  ((∃ h, h ∈ heights (ResidentPerson._histories resident) ∧
         PrimFloat.is_nan h = false) →
   ∃ m, is_minimum m (heights (ResidentPerson._histories resident)) ∧
        (ResidentPerson.is_door resident = true ↔ (2.5 <? m)%float = true)) ∧
  ((∀ h, h ∈ heights (ResidentPerson._histories resident) →
         PrimFloat.is_nan h = true) →
   ResidentPerson.is_door resident = true) ∧
  (ResidentPerson.is_misc resident = true ↔
   Forall (λ obj, Object.label obj = LABEL_MISC)
          (ResidentPerson._histories resident)).
Proof.
  split; [apply is_door_numbers|]. split; [|split].
  - intros Hsome. destruct (minimum_exists _ Hsome) as [m Hm].
    exists m. split; [done|]. by apply is_door_minimum.
  - intros Hnan. apply is_door_numbers. intros h Hh. left. by apply Hnan.
  - apply is_misc_loop_Forall.
Qed.

(** Every record that the tracker builds has a non-empty history. *)
Lemma histories_init_nonempty (id : Z) (obj : Object.t) (ts : Timestamp) :
  ResidentPerson._histories (ResidentPerson.init id obj ts) ≠ [].
Proof.
  unfold ResidentPerson.init, ResidentPerson._update_starting_zone. cbn.
  by destruct (Object.zone_ids obj).
Qed.

Lemma histories_push_nonempty (self : ResidentPerson.t) (obj : Object.t) :
  ResidentPerson._histories (ResidentPerson.push_history self obj) ≠ [].
Proof.
  unfold ResidentPerson.push_history, ResidentPerson._update_starting_zone.
  cbn [ResidentPerson._enter_zone].
  destruct (negb _); [destruct (Object.zone_ids obj)|]; cbn;
    by destruct (ResidentPerson._histories self).
Qed.

Section StartingZone.
Import ResidentPerson.

Lemma push_history_enter_zone (self : t) (obj : Object.t) :
  _enter_zone (push_history self obj)
  = if truthy (_enter_zone self) then _enter_zone self
    else match Object.zone_ids obj with
         | zone_id :: _ => Some zone_id
         | [] => _enter_zone self
         end.
Proof.
  unfold push_history, _update_starting_zone. cbn [_enter_zone].
  destruct (truthy (_enter_zone self)); cbn [negb]; [done|].
  by destruct (Object.zone_ids obj).
Qed.

Lemma push_all_keeps_zone (self : t) (objs : list Object.t) (zone_id : Z) :
  _enter_zone self = Some zone_id → zone_id ≠ 0 →
  _enter_zone (fold_left push_history objs self) = Some zone_id.
Proof.
  revert self. induction objs as [|obj objs IH]; intros self Hz Hne; [done|].
  cbn [fold_left]. apply IH; [|done].
  rewrite push_history_enter_zone, Hz. cbn.
  by destruct (Z.eqb_spec zone_id 0).
Qed.
End StartingZone.

(** C10.  Once the starting zone holds a non-zero zone id, no sequence of
    later snapshots changes it.  A starting zone that is unset or holds the
    zone id 0 counts as absent: the next snapshot that lies in a zone
    overwrites it with its first zone id, so a record created in zone 0
    changes its starting zone afterwards. *)
Theorem starting_zone_sticky_unless_zero
    (self : ResidentPerson.t) (objs : list Object.t) (obj : Object.t)
    (zone_id later_zone : Z) (rest : list Z) :
  (ResidentPerson.starting_zone self = Some zone_id → zone_id ≠ 0 →
   ResidentPerson.starting_zone (fold_left ResidentPerson.push_history objs self)
   = Some zone_id) ∧
  (ResidentPerson.starting_zone self = None ∨
   ResidentPerson.starting_zone self = Some 0 →
   Object.zone_ids obj = later_zone :: rest →
   ResidentPerson.starting_zone (ResidentPerson.push_history self obj)
   = Some later_zone) ∧
  (∀ (id : Z) (first : Object.t) (born : Timestamp) (others : list Z),
     Object.zone_ids first = 0 :: others →
     Object.zone_ids obj = later_zone :: rest →
     ResidentPerson.starting_zone (ResidentPerson.init id first born) = Some 0 ∧
     ResidentPerson.starting_zone
       (ResidentPerson.push_history (ResidentPerson.init id first born) obj)
     = Some later_zone).
Proof.
  unfold ResidentPerson.starting_zone. split; [|split].
  - apply push_all_keeps_zone.
  - intros Hfalsy Hzones. rewrite push_history_enter_zone, Hzones.
    by destruct Hfalsy as [-> | ->].
  - intros id first born others Hfirst Hzones.
    assert (ResidentPerson._enter_zone (ResidentPerson.init id first born) = Some 0)
      as Hinit.
    { unfold ResidentPerson.init, ResidentPerson._update_starting_zone. cbn.
      by rewrite Hfirst. }
    split; [done|]. by rewrite push_history_enter_zone, Hinit, Hzones.
Qed.

(** ** The dispatcher *)

Section Dispatcher.
Context {F : Type} `{PyFloat F}.
Import Bank.

Lemma too_long_threshold (resident_time : Z) :
  (_too_long_resident_time < Qc_of_Z resident_time)%Qc ↔ 3600 < resident_time.
Proof.
  unfold _too_long_resident_time.
  by rewrite <-Z2Qc_inj_mul, <-Z2Qc_inj_lt.
Qed.

(** A record that is door or misc is dropped, the average untouched. *)
Lemma losing_discarded (bank : t F) (out : list (Line F)) (obj_id : Z)
    (timestamp : Timestamp) (resident : ResidentPerson.t) :
  _residents bank !! obj_id = Some resident →
  ResidentPerson.is_misc resident || ResidentPerson.is_door resident = true →
  _on_losing_event_handler obj_id timestamp {| self := bank; stdout := out |}
  = (inr tt,
     {| self := set_residents (delete obj_id (_residents bank)) bank;
        stdout := out ++ [if ResidentPerson.is_misc resident
                          then ObjMisc obj_id else ObjDoor obj_id] |}).
Proof.
  intros Hres Hdiscard. unfold _on_losing_event_handler. py_run.
  rewrite Hres.
  destruct (ResidentPerson.is_misc resident), (ResidentPerson.is_door resident);
    try done; cbn [negb andb]; py_run; by rewrite Hres.
Qed.

(** A record that is neither door nor misc is averaged, reported with the
    name of its starting zone, and dropped. *)
Lemma losing_reported (bank : t F) (out : list (Line F)) (obj_id : Z)
    (timestamp : Timestamp) (resident : ResidentPerson.t) (name : string) :
  _residents bank !! obj_id = Some resident →
  ResidentPerson.is_misc resident || ResidentPerson.is_door resident = false →
  match ResidentPerson.starting_zone resident with
  | None => name = "No Zone"%string
  | Some zone_id => _zone_info bank !! zone_id = Some name
  end →
  let dwell := time_diff_in_s timestamp (ResidentPerson.born_timestamp resident) in
  let avg := CumulativeAvg.update (_resident_avg bank) (f_of_int dwell) in
  _on_losing_event_handler obj_id timestamp {| self := bank; stdout := out |}
  = (inr tt,
     {| self := set_residents (delete obj_id (_residents bank))
                  (set_resident_avg avg bank);
        stdout := out ++ [ObjResident obj_id dwell (CumulativeAvg.get avg) name] |}).
Proof.
  intros Hres Hkeep Hname dwell avg. unfold _on_losing_event_handler. py_run.
  rewrite Hres. apply orb_false_elim in Hkeep as [-> ->]. cbn [negb andb].
  fold dwell. fold avg.
  destruct (ResidentPerson.starting_zone resident) as [zone_id|]; py_run.
  - rewrite Hname. py_run. by rewrite Hres.
  - subst name. by rewrite Hres.
Qed.

(** When the zone-name map does not resolve the starting zone, the report
    fails after the average was updated, and the record stays. *)
Lemma losing_unresolved_zone (bank : t F) (out : list (Line F)) (obj_id : Z)
    (timestamp : Timestamp) (resident : ResidentPerson.t) (zone_id : Z) :
  _residents bank !! obj_id = Some resident →
  ResidentPerson.is_misc resident || ResidentPerson.is_door resident = false →
  ResidentPerson.starting_zone resident = Some zone_id →
  _zone_info bank !! zone_id = None →
  let dwell := time_diff_in_s timestamp (ResidentPerson.born_timestamp resident) in
  let avg := CumulativeAvg.update (_resident_avg bank) (f_of_int dwell) in
  _on_losing_event_handler obj_id timestamp {| self := bank; stdout := out |}
  = (inl (KeyError zone_id),
     {| self := set_resident_avg avg bank; stdout := out |}).
Proof.
  intros Hres Hkeep Hzone Hname dwell avg. unfold _on_losing_event_handler. py_run.
  rewrite Hres. apply orb_false_elim in Hkeep as [-> ->]. cbn [negb andb].
  fold dwell. fold avg. rewrite Hzone. py_run. by rewrite Hname.
Qed.
End Dispatcher.

Section DispatcherSteps.
Context {F : Type} `{PyFloat F}.
Import Bank.

Lemma born_push_history (resident : ResidentPerson.t) (obj : Object.t) :
  ResidentPerson.born_timestamp (ResidentPerson.push_history resident obj)
  = ResidentPerson.born_timestamp resident.
Proof.
  unfold ResidentPerson.push_history, ResidentPerson._update_starting_zone,
    ResidentPerson.born_timestamp.
  cbn [ResidentPerson._enter_zone].
  destruct (negb _); [|done]. by destruct (Object.zone_ids obj).
Qed.

(** Below the limit an append only stores the longer history. *)
Lemma observe_known (bank : t F) (out : list (Line F))
    (timestamp : Timestamp) (obj : Object.t) (resident : ResidentPerson.t) :
  _residents bank !! Object.id obj = Some resident →
  ¬ 3600 < time_diff_in_s timestamp (ResidentPerson.born_timestamp resident) →
  observe timestamp obj {| self := bank; stdout := out |}
  = (inr tt,
     {| self := set_residents
                  (<[Object.id obj := ResidentPerson.push_history resident obj]>
                     (_residents bank)) bank;
        stdout := out |}).
Proof.
  intros Hres Hshort. unfold observe. py_run. rewrite Hres. py_run.
  rewrite born_push_history.
  by rewrite bool_decide_false by by rewrite too_long_threshold.
Qed.

(** A first observation creates the record, born at the message time. *)
Lemma observe_new (bank : t F) (out : list (Line F))
    (timestamp : Timestamp) (obj : Object.t) :
  _residents bank !! Object.id obj = None →
  observe timestamp obj {| self := bank; stdout := out |}
  = (inr tt,
     {| self := set_residents
                  (<[Object.id obj :=
                       ResidentPerson.init (Object.id obj) obj timestamp]>
                     (_residents bank)) bank;
        stdout := out |}).
Proof. intros Hres. unfold observe. py_run. by rewrite Hres. Qed.

(** Above the limit an append evicts the record. *)
Lemma observe_evicts (bank : t F) (out : list (Line F))
    (timestamp : Timestamp) (obj : Object.t) (resident : ResidentPerson.t) :
  _residents bank !! Object.id obj = Some resident →
  3600 < time_diff_in_s timestamp (ResidentPerson.born_timestamp resident) →
  observe timestamp obj {| self := bank; stdout := out |}
  = (inr tt,
     {| self := set_residents (delete (Object.id obj) (_residents bank)) bank;
        stdout := out ++ [TooLong (Object.id obj)] |}).
Proof.
  intros Hres Hlong. unfold observe. py_run. rewrite Hres. py_run.
  rewrite born_push_history. rewrite bool_decide_true by by apply too_long_threshold.
  py_run. rewrite lookup_insert_eq. cbn. by rewrite delete_insert_eq.
Qed.

(** An exit event for a watched zone in which the object is not pending
    runs to completion: two lines are printed, the bank is as before. *)
Lemma exit_event_missing_entry (bank : t F) (out : list (Line F))
    (zone_id obj_id : Z) (timestamp : Timestamp) (atm : ATM.t F) :
  _ATMs bank !! zone_id = Some atm →
  ATM._residents atm !! obj_id = None →
  _on_exit_event_handler zone_id obj_id timestamp {| self := bank; stdout := out |}
  = (inr tt,
     {| self := bank;
        stdout := (out ++ [AtmMissing obj_id (ATM.id atm)])
                    ++ [AtmAvg (ATM.id atm) (ATM.get_avg_resident_time atm)] |}).
Proof.
  intros Hatm Hentry. unfold _on_exit_event_handler. py_run. rewrite Hatm.
  unfold ATM.on_exit. rewrite Hentry. cbn [for_each]. py_run.
  rewrite insert_id by done. by destruct bank.
Qed.
End DispatcherSteps.

(** C3 (as amended).  For a record present when its loss event arrives, the
    handler computes the dwell as the whole seconds of the loss timestamp
    minus the whole seconds of the born time, nanoseconds dropped, and
    updates the global running average with it exactly when the record is
    neither door nor misc; no zone tracker is touched.  The record is removed from the
    per-object map whenever it is door or misc, or the zone-name lookup
    succeeds on its starting zone. *)
Theorem finalize_present {F : Type} `{PyFloat F}
    (bank : Bank.t F) (out : list (Line F)) (obj_id : Z) (timestamp : Timestamp)
    (resident : ResidentPerson.t) :
  Bank._residents bank !! obj_id = Some resident →
  let dwell := seconds timestamp - seconds (ResidentPerson._born_time resident) in
  let discarded :=
    ResidentPerson.is_misc resident || ResidentPerson.is_door resident in
  let result :=
    Bank._on_losing_event_handler obj_id timestamp
      {| Bank.self := bank; Bank.stdout := out |} in
  let bank' := Bank.self result.2 in
  Bank._resident_avg bank'
  = (if discarded then Bank._resident_avg bank
     else CumulativeAvg.update (Bank._resident_avg bank) (f_of_int dwell)) ∧
  (Bank._resident_avg bank' ≠ Bank._resident_avg bank ↔ discarded = false) ∧
  Bank._ATMs bank' = Bank._ATMs bank ∧
  (discarded = true ∨ zone_resolved bank (ResidentPerson.starting_zone resident) →
   result.1 = inr tt ∧
   Bank._residents bank' = delete obj_id (Bank._residents bank) ∧
   Bank._residents bank' !! obj_id = None).
Proof.
  intros Hres dwell discarded result bank'. subst bank' result.
  assert (∀ residents : gmap Z ResidentPerson.t,
            (inr tt : Exn + unit) = inr tt ∧
            delete obj_id residents = delete obj_id residents ∧
            delete obj_id residents !! obj_id = None) as Hremoved.
  { intros residents. split; [done|]. split; [done|]. apply lookup_delete_eq. }
  destruct discarded eqn:Hdisc; subst discarded.
  - rewrite (losing_discarded _ _ _ _ _ Hres Hdisc). cbn.
    split; [done|]. split; [by split|]. split; [done|]. intros _. apply Hremoved.
  - assert (CumulativeAvg.update (Bank._resident_avg bank) (f_of_int dwell)
            ≠ Bank._resident_avg bank) as Hne by apply update_ne.
    destruct (ResidentPerson.starting_zone resident) as [zone_id|] eqn:Hzone.
    + destruct (Bank._zone_info bank !! zone_id) as [name|] eqn:Hname.
      * rewrite (losing_reported _ _ _ _ _ name Hres Hdisc) by by rewrite Hzone.
        cbn. split; [done|]. split; [by split|]. split; [done|].
        intros _. apply Hremoved.
      * rewrite (losing_unresolved_zone _ _ _ _ _ _ Hres Hdisc Hzone Hname).
        cbn. split; [done|]. split; [by split|]. split; [done|].
        intros [Hd | Hsome]; [done|]. rewrite Hname in Hsome.
        by apply is_Some_None in Hsome.
    + rewrite (losing_reported _ _ _ _ _ "No Zone" Hres Hdisc) by by rewrite Hzone.
      cbn. split; [done|]. split; [by split|]. split; [done|].
      intros _. apply Hremoved.
Qed.

(** C4 (as amended).  An append to an existing record compares the whole
    seconds of the message timestamp minus the whole seconds of the born
    time, nanoseconds dropped, with the maximum residency duration (3600).
    Above it the record is evicted: it leaves the per-object map and the
    too-long line is printed.  Otherwise the record stays, with the snapshot
    appended, and nothing is printed.  Neither the global average nor any
    zone tracker changes in either case. *)
Theorem observe_too_long {F : Type} `{PyFloat F}
    (bank : Bank.t F) (out : list (Line F)) (timestamp : Timestamp)
    (obj : Object.t) (resident : ResidentPerson.t) :
  Bank._residents bank !! Object.id obj = Some resident →
  let age := seconds timestamp - seconds (ResidentPerson._born_time resident) in
  let result := Bank.observe timestamp obj {| Bank.self := bank; Bank.stdout := out |} in
  let bank' := Bank.self result.2 in
  (3600 < age →
   result.1 = inr tt ∧
   Bank._residents bank' = delete (Object.id obj) (Bank._residents bank) ∧
   Bank._residents bank' !! Object.id obj = None ∧
   Bank.stdout result.2 = out ++ [TooLong (Object.id obj)]) ∧
  (¬ 3600 < age →
   result.1 = inr tt ∧
   Bank._residents bank' !! Object.id obj
   = Some (ResidentPerson.push_history resident obj) ∧
   Bank.stdout result.2 = out) ∧
  Bank._resident_avg bank' = Bank._resident_avg bank ∧
  Bank._ATMs bank' = Bank._ATMs bank.
Proof.
  intros Hres age result bank'. subst bank' result.
  destruct (decide (3600 < age)) as [Hlong|Hshort].
  - rewrite (observe_evicts bank out timestamp obj resident Hres Hlong). cbn.
    split; [|split; [done|by split]]. intros _.
    split; [done|]. split; [done|]. split; [apply lookup_delete_eq | done].
  - rewrite (observe_known bank out timestamp obj resident Hres Hshort). cbn.
    split; [done|]. split; [|by split]. intros _.
    split; [done|]. split; [apply lookup_insert_eq | done].
Qed.

(** C5.  A loss event for an object id without a record fails on the first
    access to the missing record: the exception is raised with the bank and
    the console exactly as they were. *)
Theorem losing_unknown_raises {F : Type} `{PyFloat F}
    (bank : Bank.t F) (out : list (Line F)) (obj_id : Z) (timestamp : Timestamp) :
  Bank._residents bank !! obj_id = None →
  Bank._on_losing_event_handler obj_id timestamp
    {| Bank.self := bank; Bank.stdout := out |}
  = (inl (AttributeError "is_misc"), {| Bank.self := bank; Bank.stdout := out |}).
Proof.
  intros Hres. unfold Bank._on_losing_event_handler. py_run. by rewrite Hres.
Qed.

(** C6 (as amended).  The zone-name lookup maps an absent zone id to the
    name "No Zone" and a zone id that the zone-name map resolves to its
    configured name; on a zone id that the map does not resolve it raises
    the lookup failure.  The process is left as it was in each case. *)
Theorem zone_name_lookup {F : Type} `{PyFloat F}
    (process : Bank.process F) (zone_id : Z) (name : string) :
  Bank._zone_name None process = (inr "No Zone"%string, process) ∧
  (Bank._zone_info (Bank.self process) !! zone_id = Some name →
   Bank._zone_name (Some zone_id) process = (inr name, process)) ∧
  (Bank._zone_info (Bank.self process) !! zone_id = None →
   Bank._zone_name (Some zone_id) process = (inl (KeyError zone_id), process)).
Proof.
  split; [done|]. split; intros Hname; py_run; by rewrite Hname.
Qed.

(** * The properties on sample runs *)


Lemma on_exit_matched_witness :
  ATM._residents (Sample.atm_pending_since (Sample.at_time 3 400000000)) !! 5
  = Some (Sample.at_time 3 400000000) ∧
  ATM.get_avg_resident_time
    (ATM.on_exit (Sample.atm_pending_since (Sample.at_time 3 400000000)) 5
       (Sample.at_time 10 200000000)).1 = 7%float ∧
  ATM._residents
    (ATM.on_exit (Sample.atm_pending_since (Sample.at_time 3 400000000)) 5
       (Sample.at_time 10 200000000)).1 !! 5 = None.
Proof.
  assert (ATM._residents (Sample.atm_pending_since (Sample.at_time 3 400000000)) !! 5
          = Some (Sample.at_time 3 400000000))
    as Hentry by (vm_compute; reflexivity).
  pose proof (on_exit_matched (Sample.atm_pending_since (Sample.at_time 3 400000000))
                5 (Sample.at_time 10 200000000) (Sample.at_time 3 400000000) Hentry)
    as (Hupd & _ & _ & _ & Hgone & _).
  split; [exact Hentry|]. split; [|exact Hgone].
  unfold ATM.get_avg_resident_time. rewrite Hupd.
  - vm_compute. reflexivity.
  - vm_compute. reflexivity.
Defined.

(** C1 fails on fractions of a second.  An exit 2.9 s after the entry
    exceeds the threshold of 2.0 s and is not averaged; an exit at 3.0 s
    after an entry at 0.999999999 s, less than 3 s later, averages 3. *)
Lemma on_exit_fraction_of_second :
  (ATM._time_to_assume_noisy_obj
   < elapsed (Sample.at_time 2 900000000) (Sample.at_second 0))%Qc ∧
  ATM._resident_avg
    (ATM.on_exit (Sample.atm_pending_since (Sample.at_second 0)) 5
       (Sample.at_time 2 900000000)).1
  = ATM._resident_avg (Sample.atm_pending_since (Sample.at_second 0)) ∧
  (elapsed (Sample.at_second 3) (Sample.at_time 0 999999999) < Qc_of_Z 3)%Qc ∧
  ATM.get_avg_resident_time
    (ATM.on_exit (Sample.atm_pending_since (Sample.at_time 0 999999999)) 5
       (Sample.at_second 3)).1 = 3%float.
Proof. repeat split; vm_compute; reflexivity. Qed.

Lemma on_enter_idempotent_witness :
  ATM._residents Sample.atm_pending !! 5 = Some (Sample.at_second 0) ∧
  ATM.on_enter Sample.atm_pending 5 (Sample.at_second 3) = Sample.atm_pending.
Proof.
  assert (ATM._residents Sample.atm_pending !! 5 = Some (Sample.at_second 0))
    as Hentry by (vm_compute; reflexivity).
  split; [exact Hentry|].
  exact (proj1 (on_enter_idempotent Sample.atm_pending 5 (Sample.at_second 3)
                  (Sample.at_second 0) Hentry)).
Defined.

Lemma on_exit_missing_entry_witness :
  ATM._residents (ATM.init (F:=float) 1007) !! 5 = None ∧
  ATM.on_exit (ATM.init (F:=float) 1007) 5 (Sample.at_second 7)
  = (ATM.init 1007, [AtmMissing 5 1007]).
Proof.
  assert (ATM._residents (ATM.init (F:=float) 1007) !! 5 = None)
    as Hentry by (vm_compute; reflexivity).
  split; [exact Hentry|].
  exact (on_exit_missing_entry (ATM.init 1007) 5 (Sample.at_second 7) Hentry).
Defined.

Lemma classify_door_misc_witness :
  (∃ h, h ∈ heights (ResidentPerson._histories Sample.mixed_record) ∧
        PrimFloat.is_nan h = false) ∧
  ∃ m, is_minimum m (heights (ResidentPerson._histories Sample.mixed_record)) ∧
       (ResidentPerson.is_door Sample.mixed_record = true ↔ (2.5 <? m)%float = true).
Proof.
  assert (∃ h, h ∈ heights (ResidentPerson._histories Sample.mixed_record) ∧
               PrimFloat.is_nan h = false) as Hnumber.
  { exists 3%float. split; [|reflexivity]. vm_compute. apply list_elem_of_here. }
  split; [exact Hnumber|].
  exact (proj1 (proj2 (classify_door_misc Sample.mixed_record)) Hnumber).
Defined.

(** The record seen with the heights 3.0, NaN and 2.75 is door and not
    misc. *)
Example mixed_record_is_door :
  heights (ResidentPerson._histories Sample.mixed_record)
  = [3%float; nan; 2.75%float] ∧
  ResidentPerson.is_door Sample.mixed_record = true ∧
  ResidentPerson.is_misc Sample.mixed_record = false.
Proof. repeat split; vm_compute; reflexivity. Qed.

(** C9 fails on a height that is not a number: the record seen once with
    the height NaN has a non-empty history in which no height exceeds 2.5,
    and it is door. *)
Lemma is_door_nan_height :
  heights (ResidentPerson._histories Sample.glitch_record) = [nan] ∧
  (2.5 <? nan)%float = false ∧
  ResidentPerson.is_door Sample.glitch_record = true.
Proof. repeat split; vm_compute; reflexivity. Qed.

Lemma starting_zone_sticky_unless_zero_witness :
  ResidentPerson.starting_zone
    (fold_left ResidentPerson.push_history
       [Sample.person 1 [1007]; Sample.person 1 []] Sample.lobby_record)
  = Some 7 ∧
  ResidentPerson.starting_zone
    (ResidentPerson.init 1 (Sample.person 1 [0; 7]) (Sample.at_second 10))
  = Some 0 ∧
  ResidentPerson.starting_zone
    (ResidentPerson.push_history
       (ResidentPerson.init 1 (Sample.person 1 [0; 7]) (Sample.at_second 10))
       (Sample.person 1 [1007]))
  = Some 1007.
Proof.
  pose proof (starting_zone_sticky_unless_zero Sample.lobby_record
                [Sample.person 1 [1007]; Sample.person 1 []]
                (Sample.person 1 [1007]) 7 1007 [])
    as (Hkeep & _ & Hzero).
  split.
  - apply Hkeep; [vm_compute; reflexivity | lia].
  - apply (Hzero 1 (Sample.person 1 [0; 7]) (Sample.at_second 10) [7]);
      vm_compute; reflexivity.
Defined.

Lemma finalize_present_witness :
  Bank._residents (Bank.self (Sample.bank_with Sample.lobby_record)) !! 1
  = Some Sample.lobby_record ∧
  CumulativeAvg.get
    (Bank._resident_avg
       (Bank.self (Bank._on_losing_event_handler 1 (Sample.at_time 40 100000000)
                     (Sample.bank_with Sample.lobby_record)).2)) = 30%float ∧
  (Bank._on_losing_event_handler 1 (Sample.at_time 40 100000000)
     (Sample.bank_with Sample.lobby_record)).1 = inr tt ∧
  Bank._residents
    (Bank.self (Bank._on_losing_event_handler 1 (Sample.at_time 40 100000000)
                  (Sample.bank_with Sample.lobby_record)).2) !! 1 = None.
Proof.
  assert (Bank._residents (Bank.self (Sample.bank_with Sample.lobby_record)) !! 1
          = Some Sample.lobby_record) as Hres by (vm_compute; reflexivity).
  pose proof (finalize_present _ [] 1 (Sample.at_time 40 100000000)
                Sample.lobby_record Hres) as (Havg & _ & _ & Hremoved).
  split; [exact Hres|]. split.
  - etransitivity; [exact (f_equal CumulativeAvg.get Havg)|].
    vm_compute. reflexivity.
  - destruct Hremoved as (Hok & _ & Hgone).
    + right. vm_compute. by eexists.
    + split; [exact Hok | exact Hgone].
Defined.

Lemma observe_too_long_witness :
  Bank._residents (Bank.self (Sample.bank_with Sample.lobby_record))
    !! Object.id (Sample.person 1 [7]) = Some Sample.lobby_record ∧
  Bank.stdout (Bank.observe (Sample.at_second 3611) (Sample.person 1 [7])
                 (Sample.bank_with Sample.lobby_record)).2 = [TooLong 1] ∧
  Bank._residents
    (Bank.self (Bank.observe (Sample.at_second 3611) (Sample.person 1 [7])
                  (Sample.bank_with Sample.lobby_record)).2) !! 1 = None ∧
  Bank.stdout (Bank.observe (Sample.at_second 3610) (Sample.person 1 [7])
                 (Sample.bank_with Sample.lobby_record)).2 = [] ∧
  Bank._residents
    (Bank.self (Bank.observe (Sample.at_second 3610) (Sample.person 1 [7])
                  (Sample.bank_with Sample.lobby_record)).2) !! 1
  = Some (ResidentPerson.push_history Sample.lobby_record (Sample.person 1 [7])).
Proof.
  assert (Bank._residents (Bank.self (Sample.bank_with Sample.lobby_record))
            !! Object.id (Sample.person 1 [7]) = Some Sample.lobby_record)
    as Hres by (vm_compute; reflexivity).
  split; [exact Hres|].
  pose proof (observe_too_long _ [] (Sample.at_second 3611) (Sample.person 1 [7])
                Sample.lobby_record Hres) as (Hevict & _ & _).
  pose proof (observe_too_long _ [] (Sample.at_second 3610) (Sample.person 1 [7])
                Sample.lobby_record Hres) as (_ & Hkeep & _).
  destruct Hevict as (_ & _ & Hgone & Hout); [vm_compute; reflexivity|].
  destruct Hkeep as (_ & Hkept & Hquiet); [vm_compute; discriminate|].
  split; [exact Hout|]. split; [exact Hgone|]. split; [exact Hquiet | exact Hkept].
Defined.

(** C4 fails on fractions of a second: a record born at 10 s and appended
    to at 3610.999999999 s is older than 3600 s and stays in the map, and
    nothing is printed. *)
Lemma observe_fraction_of_second :
  Bank._residents (Bank.self (Sample.bank_with Sample.lobby_record)) !! 1
  = Some Sample.lobby_record ∧
  (Bank._too_long_resident_time
   < elapsed (Sample.at_time 3610 999999999)
       (ResidentPerson.born_timestamp Sample.lobby_record))%Qc ∧
  Bank._residents
    (Bank.self (Bank.observe (Sample.at_time 3610 999999999) (Sample.person 1 [7])
                  (Sample.bank_with Sample.lobby_record)).2) !! 1
  = Some (ResidentPerson.push_history Sample.lobby_record (Sample.person 1 [7])) ∧
  Bank.stdout (Bank.observe (Sample.at_time 3610 999999999) (Sample.person 1 [7])
                 (Sample.bank_with Sample.lobby_record)).2 = [].
Proof. repeat split; vm_compute; reflexivity. Qed.

Lemma losing_unknown_raises_witness :
  Bank._residents Sample.bank !! 9 = None ∧
  Bank._on_losing_event_handler 9 (Sample.at_second 40) Sample.start
  = (inl (AttributeError "is_misc"), Sample.start).
Proof.
  assert (Bank._residents Sample.bank !! 9 = None) as Hres
    by (vm_compute; reflexivity).
  split; [exact Hres|].
  exact (losing_unknown_raises Sample.bank [] 9 (Sample.at_second 40) Hres).
Defined.

Lemma zone_name_lookup_witness :
  Bank._zone_info (Bank.self Sample.start) !! 7 = Some "Lobby"%string ∧
  Bank._zone_name (Some 7) Sample.start = (inr "Lobby"%string, Sample.start).
Proof.
  assert (Bank._zone_info (Bank.self Sample.start) !! 7 = Some "Lobby"%string)
    as Hname by (vm_compute; reflexivity).
  split; [exact Hname|].
  exact (proj1 (proj2 (zone_name_lookup Sample.start 7 "Lobby")) Hname).
Defined.

(** C6 fails on a zone id that the zone-name map does not resolve: the
    lookup of zone 5 raises instead of answering "No Zone". *)
Lemma zone_name_unresolved_raises :
  (Bank._zone_name (Some 5) Sample.start).1 = inl (KeyError 5) ∧
  (Bank._zone_name (Some 5) Sample.start).1 ≠ inr "No Zone"%string.
Proof. split; [vm_compute; reflexivity | vm_compute; discriminate]. Qed.

(** C3 fails on a record whose starting zone the zone-name map does not
    resolve: the loss event of object 1, a person first seen in zone 5, ends
    in the lookup failure with the record still in the per-object map.  It
    fails on fractions of a second too: a record born at 10.9 s and lost at
    40.1 s, less than 30 s later, feeds 30 to the average. *)
Lemma finalize_unresolved_zone_keeps_record :
  Bank._residents (Bank.self (Sample.bank_with Sample.stray_record)) !! 1
  = Some Sample.stray_record ∧
  (Bank._on_losing_event_handler 1 (Sample.at_second 40)
     (Sample.bank_with Sample.stray_record)).1 = inl (KeyError 5) ∧
  Bank._residents
    (Bank.self (Bank._on_losing_event_handler 1 (Sample.at_second 40)
                  (Sample.bank_with Sample.stray_record)).2) !! 1
  = Some Sample.stray_record ∧
  (elapsed (Sample.at_time 40 100000000)
     (ResidentPerson.born_timestamp Sample.late_record) < Qc_of_Z 30)%Qc ∧
  CumulativeAvg.get
    (Bank._resident_avg
       (Bank.self (Bank._on_losing_event_handler 1 (Sample.at_time 40 100000000)
                     (Sample.bank_with Sample.late_record)).2)) = 30%float.
Proof. repeat split; vm_compute; reflexivity. Qed.

(** ** Scenarios *)

(** enter(obj=5, t=0), exit(obj=5, t=1.5) on ATM(1007): the average is
    unaffected and the entry is removed. *)
Example scenario_noise_exit :
  let run := Sample.deliver
               [Sample.zone_message (Sample.at_second 0) ENTRY 1007 5;
                Sample.zone_message {| seconds := 1; nanos := 500000000 |}
                  EXIT 1007 5] Sample.start in
  run.1 = inr tt ∧
  Sample.atm_avg 1007 run = Some 0%float ∧
  Sample.atm_pending_ids 1007 run = Some [] ∧
  Bank.stdout run.2 = [AtmAvg 1007 0%float].
Proof. repeat split; vm_compute; reflexivity. Qed.

(** Dwell times of 5 s and 7 s at ATM(1007) average to 6.0. *)
Example scenario_two_visits :
  let run := Sample.deliver
               [Sample.zone_message (Sample.at_second 0) ENTRY 1007 5;
                Sample.zone_message (Sample.at_second 5) EXIT 1007 5;
                Sample.zone_message (Sample.at_second 0) ENTRY 1007 6;
                Sample.zone_message (Sample.at_second 7) EXIT 1007 6]
               Sample.start in
  run.1 = inr tt ∧
  Sample.atm_avg 1007 run = Some 6%float ∧
  Bank.stdout run.2 = [AtmAvg 1007 5%float; AtmAvg 1007 6%float].
Proof. repeat split; vm_compute; reflexivity. Qed.

(** The dwell is a difference of whole seconds: 2.9 s after the entry the
    dwell is 2, which does not exceed the threshold. *)
Example scenario_whole_seconds :
  let run := Sample.deliver
               [Sample.zone_message (Sample.at_second 0) ENTRY 1007 5;
                Sample.zone_message {| seconds := 2; nanos := 900000000 |}
                  EXIT 1007 5] Sample.start in
  Sample.atm_avg 1007 run = Some 0%float ∧
  Sample.atm_pending_ids 1007 run = Some [].
Proof. repeat split; vm_compute; reflexivity. Qed.

(** An object still observed after more than an hour is evicted, and no
    average moves. *)
Example scenario_eviction :
  let run := Sample.deliver
               [Sample.stream_message 10 [Sample.person 1 [7]];
                Sample.stream_message 3611 [Sample.person 1 [7]]]
               Sample.start in
  run.1 = inr tt ∧
  Bank._residents (Bank.self run.2) = ∅ ∧
  Bank.stdout run.2 = [TooLong 1] ∧
  Bank._resident_avg (Bank.self run.2) = CumulativeAvg.init ∧
  Bank._ATMs (Bank.self run.2) = Bank._ATMs Sample.bank.
Proof. repeat split; vm_compute; reflexivity. Qed.

(** A person first seen in the lobby and lost 30 s later is averaged and
    reported with the zone's name. *)
Example scenario_reported :
  let run := Sample.deliver
               [Sample.stream_message 10 [Sample.person 1 [7]];
                Sample.losing_message 40 1] Sample.start in
  run.1 = inr tt ∧
  Bank._residents (Bank.self run.2) = ∅ ∧
  Bank.stdout run.2 = [ObjResident 1 30 30%float "Lobby"].
Proof. repeat split; vm_compute; reflexivity. Qed.

(** A person first seen in a zone without a name: the loss event stops at
    the zone-name lookup, after the average was updated. *)
Example scenario_unnamed_zone :
  let run := Sample.deliver
               [Sample.stream_message 10 [Sample.person 1 [5]];
                Sample.losing_message 40 1] Sample.start in
  run.1 = inl (KeyError 5) ∧
  Bank._residents (Bank.self run.2) !! 1 = Some Sample.stray_record ∧
  CumulativeAvg.get (Bank._resident_avg (Bank.self run.2)) = 30%float ∧
  Bank.stdout run.2 = [].
Proof. repeat split; vm_compute; reflexivity. Qed.

(** * Further properties of the tracker *)

(** ** Zone trackers *)

Lemma on_enter_id {F : Type} `{PyFloat F}
    (atm : ATM.t F) (obj_id : Z) (timestamp : Timestamp) :
  ATM.id (ATM.on_enter atm obj_id timestamp) = ATM.id atm.
Proof. unfold ATM.on_enter. by destruct (ATM._residents atm !! obj_id). Qed.

Lemma on_exit_id {F : Type} `{PyFloat F}
    (atm : ATM.t F) (obj_id : Z) (timestamp : Timestamp) :
  ATM.id (ATM.on_exit atm obj_id timestamp).1 = ATM.id atm.
Proof. unfold ATM.on_exit. by destruct (ATM._residents atm !! obj_id). Qed.

Lemma on_exit_not_pending {F : Type} `{PyFloat F}
    (atm : ATM.t F) (obj_id : Z) (timestamp : Timestamp) :
  ATM._residents (ATM.on_exit atm obj_id timestamp).1 !! obj_id = None.
Proof.
  unfold ATM.on_exit.
  destruct (ATM._residents atm !! obj_id) eqn:Hentry; cbn; [|done].
  apply lookup_delete_eq.
Qed.

(** X1.  An entry followed by the exit of the same object, which was not
    pending before, leaves the pending map as it was; the time between the
    two events joins the average exactly when it exceeds the threshold. *)
Theorem enter_exit_round_trip {F : Type} `{PyFloat F}
    (atm : ATM.t F) (obj_id : Z) (t_in t_out : Timestamp) :
  ATM._residents atm !! obj_id = None →
  let dwell := ToSeconds t_out - ToSeconds t_in in
  let exit := ATM.on_exit (ATM.on_enter atm obj_id t_in) obj_id t_out in
  ATM._residents exit.1 = ATM._residents atm ∧
  ATM._resident_avg exit.1
  = (if bool_decide (2 < dwell)
     then CumulativeAvg.update (ATM._resident_avg atm) (f_of_int dwell)
     else ATM._resident_avg atm) ∧
  exit.2 = [].
Proof.
  intros Hfree dwell exit. subst exit.
  unfold ATM.on_enter. rewrite Hfree. unfold ATM.on_exit.
  cbn [ATM._residents ATM._resident_avg ATM._target_zone_id].
  rewrite lookup_insert_eq. fold dwell. cbn [fst snd ATM._residents ATM._resident_avg].
  split; [by apply delete_insert_id|]. split; [|done].
  by rewrite (bool_decide_ext _ _ (noisy_threshold dwell)).
Qed.

(** X2.  After an exit of an object, matched or not, a second exit of the
    same object finds no entry: it prints the missing-entry line and changes
    nothing. *)
Theorem exit_twice_missing {F : Type} `{PyFloat F}
    (atm : ATM.t F) (obj_id : Z) (t1 t2 : Timestamp) :
  ATM.on_exit (ATM.on_exit atm obj_id t1).1 obj_id t2
  = ((ATM.on_exit atm obj_id t1).1, [AtmMissing obj_id (ATM.id atm)]).
Proof.
  pose proof (on_exit_not_pending atm obj_id t1) as Hgone.
  unfold ATM.on_exit at 1. rewrite Hgone. by rewrite on_exit_id.
Qed.

(** X3.  Entry and exit events of one object leave the pending entry of
    every other object as it was, and an entry event never changes the
    average. *)
Theorem tracker_events_frame {F : Type} `{PyFloat F}
    (atm : ATM.t F) (obj_id other : Z) (timestamp : Timestamp) :
  other ≠ obj_id →
  ATM._residents (ATM.on_enter atm obj_id timestamp) !! other
  = ATM._residents atm !! other ∧
  ATM._residents (ATM.on_exit atm obj_id timestamp).1 !! other
  = ATM._residents atm !! other ∧
  ATM._resident_avg (ATM.on_enter atm obj_id timestamp) = ATM._resident_avg atm.
Proof.
  intros Hne. unfold ATM.on_enter, ATM.on_exit.
  destruct (ATM._residents atm !! obj_id) eqn:Hentry; cbn.
  - split; [done|]. split; [|done]. by apply lookup_delete_ne.
  - split; [|done]. by apply lookup_insert_ne.
Qed.

(** ** Residency records *)

Section Records.
Import ResidentPerson.

Lemma update_starting_zone_fields (self : t) (obj : Object.t) :
  _id (_update_starting_zone self obj) = _id self ∧
  _histories (_update_starting_zone self obj) = _histories self ∧
  _born_time (_update_starting_zone self obj) = _born_time self.
Proof.
  unfold _update_starting_zone.
  destruct (negb _); [|done]. by destruct (Object.zone_ids obj).
Qed.

Lemma update_starting_zone_settle (self : t) (obj : Object.t) (zones : list Z) :
  settle (_enter_zone (_update_starting_zone self obj)) zones
  = settle (_enter_zone self) (leading_zones [obj] ++ zones).
Proof.
  unfold _update_starting_zone, leading_zones, settle. cbn [omap list_omap].
  destruct (truthy (_enter_zone self)) eqn:Htruthy; cbn [negb].
  - by rewrite Htruthy.
  - destruct (Object.zone_ids obj) as [|zone_id others]; cbn.
    + by rewrite Htruthy.
    + destruct (Z.eqb_spec zone_id 0) as [->|Hne]; cbn; [|done].
      destruct (find _ zones); [done|].
      rewrite last_cons. by destruct (list.last zones).
Qed.

Lemma push_history_settle (self : t) (objs : list Object.t) :
  _enter_zone (fold_left push_history objs self)
  = settle (_enter_zone self) (leading_zones objs).
Proof.
  revert self. induction objs as [|obj objs IH]; intros self.
  - unfold settle, leading_zones. cbn. by destruct (truthy (_enter_zone self)).
  - cbn [fold_left]. rewrite IH. unfold push_history.
    rewrite update_starting_zone_settle. cbn [_enter_zone].
    unfold leading_zones. by rewrite <-omap_app.
Qed.

Lemma push_history_fields (self : t) (objs : list Object.t) :
  _id (fold_left push_history objs self) = _id self ∧
  _histories (fold_left push_history objs self) = _histories self ++ objs ∧
  _born_time (fold_left push_history objs self) = _born_time self.
Proof.
  revert self. induction objs as [|obj objs IH]; intros self; cbn [fold_left].
  - by rewrite app_nil_r.
  - destruct (IH (push_history self obj)) as (Hid & Hhist & Hborn).
    rewrite Hid, Hhist, Hborn. unfold push_history.
    destruct (update_starting_zone_fields
                {| _id := _id self; _enter_zone := _enter_zone self;
                   _histories := _histories self ++ [obj];
                   _born_time := _born_time self |} obj) as (-> & -> & ->).
    cbn. by rewrite <-app_assoc.
Qed.

Lemma min_scan_snoc (histories : list Object.t) (obj : Object.t) (acc : float) :
  min_scan (histories ++ [obj]) acc
  = if (Object.bbox_size_z obj <? min_scan histories acc)%float
    then Object.bbox_size_z obj else min_scan histories acc.
Proof. unfold min_scan. by rewrite fold_left_app. Qed.

Lemma is_misc_loop_snoc (histories : list Object.t) (obj : Object.t) :
  is_misc_loop (histories ++ [obj])
  = is_misc_loop histories && bool_decide (Object.label obj = LABEL_MISC).
Proof.
  induction histories as [|first histories IH]; cbn.
  - destruct (decide (Object.label obj = LABEL_MISC)) as [Heq|Hne].
    + rewrite (bool_decide_true _ Heq), bool_decide_false; [done|]. by intros ?.
    + by rewrite (bool_decide_false _ Hne), bool_decide_true.
  - destruct (bool_decide (Object.label first ≠ LABEL_MISC)); [done | exact IH].
Qed.
End Records.

(** X4.  A record keeps every snapshot in the order of arrival, and its id
    and born time are those of its creation, whatever is appended. *)
Theorem record_keeps_history (id : Z) (obj : Object.t) (born : Timestamp)
    (objs : list Object.t) :
  let record := fold_left ResidentPerson.push_history objs
                  (ResidentPerson.init id obj born) in
  ResidentPerson._histories record = obj :: objs ∧
  ResidentPerson.born_timestamp record = born ∧
  ResidentPerson._id record = id.
Proof.
  intros record. subst record. unfold ResidentPerson.born_timestamp.
  destruct (push_history_fields (ResidentPerson.init id obj born) objs)
    as (-> & -> & ->).
  unfold ResidentPerson.init.
  by destruct (update_starting_zone_fields
                 {| ResidentPerson._id := id; ResidentPerson._enter_zone := None;
                    ResidentPerson._histories := [obj];
                    ResidentPerson._born_time := born |} obj) as (-> & -> & ->).
Qed.

(** X5.  The starting zone of a record is read off the leading zone ids of
    its snapshots that lie in a zone: it is the first of them that is not 0;
    when all of them are 0 it is 0; when no snapshot lies in a zone it is
    unset. *)
Theorem starting_zone_closed_form (id : Z) (obj : Object.t) (born : Timestamp)
    (objs : list Object.t) :
  ResidentPerson.starting_zone
    (fold_left ResidentPerson.push_history objs (ResidentPerson.init id obj born))
  = first_nonzero_or_last (leading_zones (obj :: objs)).
Proof.
  unfold ResidentPerson.starting_zone. rewrite push_history_settle.
  unfold ResidentPerson.init. rewrite update_starting_zone_settle.
  cbn [ResidentPerson._enter_zone].
  change (leading_zones [obj] ++ leading_zones objs)
    with (leading_zones ([obj] ++ objs)) || (unfold leading_zones; rewrite <-omap_app).
  unfold settle, first_nonzero_or_last. cbn [ResidentPerson.truthy app].
  destruct (find _ _); [done|]. by destruct (list.last _).
Qed.

(** X6.  Appending a snapshot can only take a classification away: the
    record is misc afterwards exactly when it was misc and the snapshot is
    labelled miscellaneous, and door exactly when it was door and the height
    of the snapshot exceeds 2.5 or is not a number. *)
Theorem classification_after_append (resident : ResidentPerson.t) (obj : Object.t) :
  ResidentPerson.is_misc (ResidentPerson.push_history resident obj)
  = ResidentPerson.is_misc resident
    && bool_decide (Object.label obj = LABEL_MISC) ∧
  ResidentPerson.is_door (ResidentPerson.push_history resident obj)
  = ResidentPerson.is_door resident
    && (PrimFloat.is_nan (Object.bbox_size_z obj)
        || (2.5 <? Object.bbox_size_z obj)%float).
Proof.
  unfold ResidentPerson.is_misc, ResidentPerson.is_door, ResidentPerson.push_history.
  destruct (update_starting_zone_fields
              {| ResidentPerson._id := ResidentPerson._id resident;
                 ResidentPerson._enter_zone := ResidentPerson._enter_zone resident;
                 ResidentPerson._histories :=
                   ResidentPerson._histories resident ++ [obj];
                 ResidentPerson._born_time := ResidentPerson._born_time resident |}
              obj) as (_ & -> & _).
  cbn [ResidentPerson._histories]. split; [apply is_misc_loop_snoc|].
  fold (min_scan (ResidentPerson._histories resident ++ [obj]) 999).
  fold (min_scan (ResidentPerson._histories resident) 999).
  rewrite min_scan_snoc.
  destruct (min_scan_spec (ResidentPerson._histories resident) 999 eq_refl)
    as (Hm & _).
  set (m := min_scan (ResidentPerson._histories resident) 999) in *.
  set (h := Object.bbox_size_z obj).
  destruct (h <? m)%float eqn:Hlt.
  - destruct (ltb_numbers _ _ Hlt) as [Hh _]. rewrite Hh, orb_false_l.
    destruct (2.5 <? h)%float eqn:Hhigh; [|by rewrite andb_false_r].
    by rewrite (ltb_trans _ _ _ Hhigh Hlt).
  - destruct (2.5 <? m)%float eqn:Hdoor; [|done]. rewrite andb_true_l.
    destruct (PrimFloat.is_nan h) eqn:Hnan; [done|]. rewrite orb_false_l.
    symmetry. by apply (ltb_le_trans _ m).
Qed.

(** ** The dispatcher, handler by handler *)

Section Handlers.
Context {F : Type} `{PyFloat F}.
Import Bank.

Lemma for_each_print (lines : list (Line F)) (p : process F) :
  for_each lines print p
  = (inr tt, {| self := self p; stdout := stdout p ++ lines |}).
Proof.
  revert p. induction lines as [|line lines IH]; intros [bank out]; cbn [for_each].
  - unfold ret. cbn. by rewrite app_nil_r.
  - py_run. rewrite IH. cbn. by rewrite <-app_assoc.
Qed.

(** A loop keeps what each round keeps, also when a round raises. *)
Lemma for_each_keeps {S A : Type} (keeps : S → Prop) (body : A → Py S unit)
    (xs : list A) :
  (∀ x s, keeps s → keeps (body x s).2) →
  ∀ s, keeps s → keeps (for_each xs body s).2.
Proof.
  intros Hbody. induction xs as [|x xs IH]; intros s Hs; cbn [for_each].
  - done.
  - unfold bind. pose proof (Hbody x s Hs) as Hx.
    destruct (body x s) as [[e|[]] s']; cbn in *; [done|]. by apply IH.
Qed.

(** A loop of rounds that never raise never raises. *)
Lemma for_each_returns {S A : Type} (body : A → Py S unit) (xs : list A) :
  (∀ x s, (body x s).1 = inr tt) → ∀ s, (for_each xs body s).1 = inr tt.
Proof.
  intros Hbody. induction xs as [|x xs IH]; intros s; cbn [for_each]; [done|].
  unfold bind. pose proof (Hbody x s) as Hx.
  destruct (body x s) as [[e|[]] s']; cbn in *; [done|]. apply IH.
Qed.

Lemma entry_event_watched (bank : t F) (out : list (Line F))
    (zone_id obj_id : Z) (timestamp : Timestamp) (atm : ATM.t F) :
  _ATMs bank !! zone_id = Some atm →
  _on_entry_event_handler zone_id obj_id timestamp {| self := bank; stdout := out |}
  = (inr tt,
     {| self := set_ATMs (<[zone_id := ATM.on_enter atm obj_id timestamp]>
                            (_ATMs bank)) bank;
        stdout := out |}).
Proof. intros Hatm. unfold _on_entry_event_handler. py_run. by rewrite Hatm. Qed.

Lemma entry_event_unwatched (p : process F) (zone_id obj_id : Z)
    (timestamp : Timestamp) :
  _ATMs (self p) !! zone_id = None →
  _on_entry_event_handler zone_id obj_id timestamp p = (inr tt, p).
Proof. intros Hatm. unfold _on_entry_event_handler. py_run. by rewrite Hatm. Qed.

Lemma exit_event_watched (bank : t F) (out : list (Line F))
    (zone_id obj_id : Z) (timestamp : Timestamp) (atm : ATM.t F) :
  _ATMs bank !! zone_id = Some atm →
  let exit := ATM.on_exit atm obj_id timestamp in
  _on_exit_event_handler zone_id obj_id timestamp {| self := bank; stdout := out |}
  = (inr tt,
     {| self := set_ATMs (<[zone_id := exit.1]> (_ATMs bank)) bank;
        stdout := (out ++ exit.2)
                    ++ [AtmAvg (ATM.id exit.1) (ATM.get_avg_resident_time exit.1)] |}).
Proof.
  intros Hatm exit. subst exit. unfold _on_exit_event_handler. py_run.
  rewrite Hatm. destruct (ATM.on_exit atm obj_id timestamp) as [atm' lines].
  py_run. by rewrite for_each_print.
Qed.

Lemma exit_event_unwatched (p : process F) (zone_id obj_id : Z)
    (timestamp : Timestamp) :
  _ATMs (self p) !! zone_id = None →
  _on_exit_event_handler zone_id obj_id timestamp p = (inr tt, p).
Proof. intros Hatm. unfold _on_exit_event_handler. py_run. by rewrite Hatm. Qed.

Lemma losing_unknown (p : process F) (obj_id : Z) (timestamp : Timestamp) :
  _residents (self p) !! obj_id = None →
  _on_losing_event_handler obj_id timestamp p
  = (inl (AttributeError "is_misc"), p).
Proof.
  intros Hres. unfold _on_losing_event_handler. py_run. by rewrite Hres.
Qed.
End Handlers.

Section Shapes.
Context {F : Type} `{PyFloat F}.
Import Bank.

Lemma bind_keeps {S A B : Type} (keeps : S → Prop) (c : Py S A) (k : A → Py S B) :
  (∀ s, keeps s → keeps (c s).2) →
  (∀ a s, keeps s → keeps (k a s).2) →
  ∀ s, keeps s → keeps (bind c k s).2.
Proof.
  intros Hc Hk s Hs. unfold bind. pose proof (Hc s Hs) as Hcs.
  destruct (c s) as [[e|a] s']; cbn in *; [done|]. by apply Hk.
Qed.

Lemma set_fields_id (bank : t F) :
  set_residents (_residents bank) (set_resident_avg (_resident_avg bank) bank) = bank.
Proof. by destruct bank. Qed.

(** What an append does to the bank: only the per-object map changes, and
    there only the slot of the object. *)
Lemma observe_shape (p : process F) (timestamp : Timestamp) (obj : Object.t) :
  ∃ residents' lines,
    observe timestamp obj p
    = (inr tt, {| self := set_residents residents' (self p);
                  stdout := stdout p ++ lines |}) ∧
    (∀ other, other ≠ Object.id obj →
              residents' !! other = _residents (self p) !! other) ∧
    (residents' !! Object.id obj = None ∨
     residents' !! Object.id obj
     = Some (ResidentPerson.init (Object.id obj) obj timestamp) ∨
     ∃ resident, _residents (self p) !! Object.id obj = Some resident ∧
                 residents' !! Object.id obj
                 = Some (ResidentPerson.push_history resident obj)).
Proof.
  destruct p as [bank out]. cbn [self stdout].
  destruct (_residents bank !! Object.id obj) as [resident|] eqn:Hres.
  - destruct (decide (3600 < time_diff_in_s timestamp
                               (ResidentPerson.born_timestamp resident))) as [Hlong|Hshort].
    + exists (delete (Object.id obj) (_residents bank)), [TooLong (Object.id obj)].
      rewrite (observe_evicts _ _ _ _ _ Hres Hlong). split; [done|]. split.
      * intros other Hne. by apply lookup_delete_ne.
      * left. apply lookup_delete_eq.
    + exists (<[Object.id obj := ResidentPerson.push_history resident obj]>
                (_residents bank)), [].
      rewrite (observe_known _ _ _ _ _ Hres Hshort), app_nil_r.
      split; [done|]. split.
      * intros other Hne. by apply lookup_insert_ne.
      * right. right. exists resident. split; [done|]. apply lookup_insert_eq.
  - exists (<[Object.id obj := ResidentPerson.init (Object.id obj) obj timestamp]>
              (_residents bank)), [].
    rewrite (observe_new _ _ _ _ Hres), app_nil_r. split; [done|]. split.
    + intros other Hne. by apply lookup_insert_ne.
    + right. left. apply lookup_insert_eq.
Qed.

(** What a loss event does to the bank: records only leave the per-object
    map, and only the global average may change besides. *)
Lemma losing_shape (p : process F) (obj_id : Z) (timestamp : Timestamp) :
  ∃ residents' avg' lines,
    (_on_losing_event_handler obj_id timestamp p).2
    = {| self := set_residents residents' (set_resident_avg avg' (self p));
         stdout := stdout p ++ lines |} ∧
    (∀ other resident, residents' !! other = Some resident →
                       _residents (self p) !! other = Some resident).
Proof.
  destruct p as [bank out]. cbn [self stdout].
  destruct (_residents bank !! obj_id) as [resident|] eqn:Hres.
  - destruct (ResidentPerson.is_misc resident || ResidentPerson.is_door resident)
      eqn:Hdisc.
    + rewrite (losing_discarded _ _ _ _ _ Hres Hdisc).
      eexists (delete obj_id (_residents bank)), (_resident_avg bank), [_].
      split; [by destruct bank|]. intros other r Hr.
      by apply lookup_delete_Some in Hr as [_ Hr].
    + destruct (ResidentPerson.starting_zone resident) as [zone_id|] eqn:Hzone.
      * destruct (_zone_info bank !! zone_id) as [name|] eqn:Hname.
        -- rewrite (losing_reported _ _ _ _ _ name Hres Hdisc) by by rewrite Hzone.
           eexists (delete obj_id (_residents bank)), _, [_].
           split; [done|]. intros other r Hr.
           by apply lookup_delete_Some in Hr as [_ Hr].
        -- rewrite (losing_unresolved_zone _ _ _ _ _ _ Hres Hdisc Hzone Hname).
           exists (_residents bank),
             (CumulativeAvg.update (_resident_avg bank)
                (f_of_int (time_diff_in_s timestamp
                             (ResidentPerson.born_timestamp resident)))), [].
           rewrite app_nil_r. split; [by destruct bank|]. done.
      * rewrite (losing_reported _ _ _ _ _ "No Zone" Hres Hdisc) by by rewrite Hzone.
        eexists (delete obj_id (_residents bank)), _, [_].
        split; [done|]. intros other r Hr.
        by apply lookup_delete_Some in Hr as [_ Hr].
  - rewrite losing_unknown by done.
    exists (_residents bank), (_resident_avg bank), [].
    rewrite app_nil_r. cbn. by rewrite set_fields_id.
Qed.

(** What a zone event does to the bank: it never raises, and only the
    tracker of its zone may change, keeping its zone id. *)
Lemma zone_event_shape (p : process F) (zone_event : ZoneEvent) :
  ∃ atms' lines,
    dispatch_zone_event zone_event p
    = (inr tt, {| self := set_ATMs atms' (self p); stdout := stdout p ++ lines |}) ∧
    (∀ other, other ≠ ze_id zone_event → atms' !! other = _ATMs (self p) !! other) ∧
    match _ATMs (self p) !! ze_id zone_event with
    | None => atms' !! ze_id zone_event = None
    | Some atm => ∃ atm', atms' !! ze_id zone_event = Some atm' ∧
                          ATM.id atm' = ATM.id atm
    end.
Proof.
  destruct p as [bank out]. cbn [self stdout].
  assert (∃ atms' lines,
            (inr tt : Exn + unit, {| self := bank; stdout := out |})
            = (inr tt, {| self := set_ATMs atms' bank; stdout := out ++ lines |}) ∧
            (∀ other, other ≠ ze_id zone_event → atms' !! other = _ATMs bank !! other) ∧
            match _ATMs bank !! ze_id zone_event with
            | None => atms' !! ze_id zone_event = None
            | Some atm => ∃ atm', atms' !! ze_id zone_event = Some atm' ∧
                                  ATM.id atm' = ATM.id atm
            end) as Hsame.
  { exists (_ATMs bank), []. rewrite app_nil_r. split; [by destruct bank|].
    split; [done|]. destruct (_ATMs bank !! ze_id zone_event); eauto. }
  unfold dispatch_zone_event.
  destruct (ze_type zone_event); [| |exact Hsame].
  - destruct (_ATMs bank !! ze_id zone_event) as [atm|] eqn:Hatm.
    + rewrite (entry_event_watched _ _ _ _ _ _ Hatm).
      eexists _, []. rewrite app_nil_r. split; [done|]. split.
      * intros other Hne. by apply lookup_insert_ne.
      * eexists. split; [apply lookup_insert_eq | apply on_enter_id].
    + rewrite entry_event_unwatched by done. exact Hsame.
  - destruct (_ATMs bank !! ze_id zone_event) as [atm|] eqn:Hatm.
    + rewrite (exit_event_watched _ _ _ _ _ _ Hatm).
      eexists _, (_ ++ [_]). rewrite app_assoc. split; [done|]. split.
      * intros other Hne. by apply lookup_insert_ne.
      * eexists. split; [apply lookup_insert_eq | apply on_exit_id].
    + rewrite exit_event_unwatched by done. exact Hsame.
Qed.
End Shapes.

Section Keeping.
Context {F : Type} `{PyFloat F}.
Import Bank.

Lemma init_id_histories (id : Z) (obj : Object.t) (timestamp : Timestamp) :
  ResidentPerson._id (ResidentPerson.init id obj timestamp) = id.
Proof.
  unfold ResidentPerson.init.
  by destruct (update_starting_zone_fields
                 {| ResidentPerson._id := id; ResidentPerson._enter_zone := None;
                    ResidentPerson._histories := [obj];
                    ResidentPerson._born_time := timestamp |} obj) as (-> & _).
Qed.

Lemma push_history_id (resident : ResidentPerson.t) (obj : Object.t) :
  ResidentPerson._id (ResidentPerson.push_history resident obj)
  = ResidentPerson._id resident.
Proof.
  by destruct (push_history_fields resident [obj]) as (Hid & _).
Qed.

Lemma init_well_keyed (zone_info : gmap Z string) :
  well_keyed (F:=F) zone_info (init zone_info).
Proof.
  unfold well_keyed, init, watched_zones. cbn. split; [|split; [|split]].
  - rewrite !dom_insert_L, dom_singleton_L. set_solver.
  - intros zone_id atm Hatm.
    repeat (apply lookup_insert_Some in Hatm as [[<- <-]|[_ Hatm]]; [done|]).
    by apply lookup_singleton_Some in Hatm as [<- <-].
  - intros obj_id resident Hres. by rewrite lookup_empty in Hres.
  - done.
Qed.

Lemma observe_keeps (zone_info : gmap Z string) (timestamp : Timestamp)
    (obj : Object.t) (p : process F) :
  well_keyed zone_info (self p) →
  well_keyed zone_info (self (observe timestamp obj p).2).
Proof.
  intros (Hdom & Hatm & Hres & Hzone).
  destruct (observe_shape p timestamp obj) as (residents' & lines & -> & Hother & Hslot).
  cbn [Bank.self Bank.stdout Bank._ATMs Bank._residents Bank._zone_info Bank._resident_avg Bank.set_ATMs Bank.set_residents Bank.set_resident_avg snd].
  split; [done|]. split; [done|]. split; [|done].
  intros obj_id resident Hlookup. cbn [Bank.self Bank.stdout Bank._ATMs Bank._residents Bank._zone_info Bank._resident_avg Bank.set_ATMs Bank.set_residents Bank.set_resident_avg snd] in Hlookup.
  destruct (decide (obj_id = Object.id obj)) as [->|Hne].
  - destruct Hslot as [Hnone | [Hnew | (old & Hold & Hpush)]].
    + by rewrite Hnone in Hlookup.
    + rewrite Hnew in Hlookup. injection Hlookup as <-.
      split; [apply init_id_histories | apply histories_init_nonempty].
    + rewrite Hpush in Hlookup. injection Hlookup as <-.
      split; [|apply histories_push_nonempty].
      rewrite push_history_id. by apply Hres.
  - rewrite Hother in Hlookup by done. by apply Hres.
Qed.

Lemma losing_keeps (zone_info : gmap Z string) (obj_id : Z)
    (timestamp : Timestamp) (p : process F) :
  well_keyed zone_info (self p) →
  well_keyed zone_info (self (_on_losing_event_handler obj_id timestamp p).2).
Proof.
  intros (Hdom & Hatm & Hres & Hzone).
  destruct (losing_shape p obj_id timestamp)
    as (residents' & avg' & lines & -> & Hsub).
  cbn [Bank.self Bank.stdout Bank._ATMs Bank._residents Bank._zone_info Bank._resident_avg Bank.set_ATMs Bank.set_residents Bank.set_resident_avg snd].
  split; [done|]. split; [done|]. split; [|done].
  intros other resident Hlookup. by apply Hres, Hsub.
Qed.

Lemma zone_event_keeps (zone_info : gmap Z string) (zone_event : ZoneEvent)
    (p : process F) :
  well_keyed zone_info (self p) →
  well_keyed zone_info (self (dispatch_zone_event zone_event p).2).
Proof.
  intros (Hdom & Hatm & Hres & Hzone).
  destruct (zone_event_shape p zone_event) as (atms' & lines & -> & Hother & Hslot).
  cbn [Bank.self Bank.stdout Bank._ATMs Bank._residents Bank._zone_info Bank._resident_avg Bank.set_ATMs Bank.set_residents Bank.set_resident_avg snd].
  split; [|split; [|done]].
  - change (_ATMs (set_ATMs atms' (self p))) with atms'.
    rewrite <-Hdom. apply set_eq. intros zone_id. rewrite !elem_of_dom.
    destruct (decide (zone_id = ze_id zone_event)) as [->|Hne].
    + destruct (_ATMs (self p) !! ze_id zone_event) as [atm|].
      * destruct Hslot as (atm' & -> & _). by split.
      * rewrite Hslot. by split.
    + by rewrite Hother.
  - intros zone_id atm' Hlookup.
    change (_ATMs (set_ATMs atms' (self p))) with atms' in Hlookup.
    cbn [Bank.self Bank.stdout Bank._ATMs Bank._residents Bank._zone_info Bank._resident_avg Bank.set_ATMs Bank.set_residents Bank.set_resident_avg snd] in Hlookup.
    destruct (decide (zone_id = ze_id zone_event)) as [->|Hne].
    + destruct (_ATMs (self p) !! ze_id zone_event) as [atm|] eqn:Hold.
      * destruct Hslot as (atm'' & Hnew & Hid). rewrite Hnew in Hlookup.
        injection Hlookup as <-. rewrite Hid. by apply Hatm.
      * by rewrite Hslot in Hlookup.
    + rewrite Hother in Hlookup by done. by apply Hatm.
Qed.

Lemma message_keeps (zone_info : gmap Z string) (message : OutputMessage)
    (p : process F) :
  well_keyed zone_info (self p) →
  well_keyed zone_info (self (_on_get_output_message message p).2).
Proof.
  unfold _on_get_output_message.
  apply (bind_keeps (λ s, well_keyed zone_info (self s))).
  - intros s Hs. destruct (stream message) as [st|]; [|done].
    apply (for_each_keeps (λ s, well_keyed zone_info (self s))); [|done].
    intros obj s'. apply observe_keeps.
  - intros _ s Hs. destruct (event message) as [ev|]; [|done].
    apply (bind_keeps (λ s, well_keyed zone_info (self s))); [| |done].
    + apply (for_each_keeps (λ s, well_keyed zone_info (self s))).
      intros zone_event s'. apply zone_event_keeps.
    + intros _. apply (for_each_keeps (λ s, well_keyed zone_info (self s))).
      intros losing_event s'. apply losing_keeps.
Qed.
End Keeping.

(** X7.  In every state of the tracker, from start-up on and across
    handlers that raised, the watched zones are the five of the start, every
    tracker and record is stored under its own id, every record has a
    history and the zone names are those of the start; and a zone event of
    a zone that is not watched changes nothing and prints nothing. *)
Theorem reachable_well_keyed {F : Type} `{PyFloat F}
    (zone_info : gmap Z string) (p : Bank.process F) :
  reachable zone_info p →
  well_keyed zone_info (Bank.self p) ∧
  ∀ zone_event, ze_id zone_event ∉ watched_zones →
                Bank.dispatch_zone_event zone_event p = (inr tt, p).
Proof.
  intros Hreach.
  assert (well_keyed zone_info (Bank.self p)) as Hkeyed.
  { induction Hreach as [|p message Hreach IH]; [apply init_well_keyed|].
    by apply message_keeps. }
  split; [exact Hkeyed|]. intros zone_event Hzone.
  destruct Hkeyed as (Hdom & _).
  assert (Bank._ATMs (Bank.self p) !! ze_id zone_event = None) as Hnone.
  { apply not_elem_of_dom. by rewrite Hdom. }
  unfold Bank.dispatch_zone_event. destruct (ze_type zone_event); [| |done].
  - by apply entry_event_unwatched.
  - by apply exit_event_unwatched.
Qed.

(** X8.  A message without events never raises, whatever objects its stream
    carries, and changes neither the global average nor any zone tracker nor
    the zone names. *)
Theorem stream_part_safe {F : Type} `{PyFloat F}
    (message : OutputMessage) (p : Bank.process F) :
  event message = None →
  (Bank._on_get_output_message message p).1 = inr tt ∧
  Bank._resident_avg (Bank.self (Bank._on_get_output_message message p).2)
  = Bank._resident_avg (Bank.self p) ∧
  Bank._ATMs (Bank.self (Bank._on_get_output_message message p).2)
  = Bank._ATMs (Bank.self p) ∧
  Bank._zone_info (Bank.self (Bank._on_get_output_message message p).2)
  = Bank._zone_info (Bank.self p).
Proof.
  intros Hevent. unfold Bank._on_get_output_message. rewrite Hevent.
  destruct (stream message) as [st|]; [|done].
  set (keeps := λ s : Bank.process F,
         Bank._resident_avg (Bank.self s) = Bank._resident_avg (Bank.self p) ∧
         Bank._ATMs (Bank.self s) = Bank._ATMs (Bank.self p) ∧
         Bank._zone_info (Bank.self s) = Bank._zone_info (Bank.self p)).
  assert (keeps (for_each (objects st) (Bank.observe (timestamp message)) p).2)
    as Hkept.
  { apply (for_each_keeps keeps); [|done]. intros obj s Hs.
    destruct (observe_shape s (timestamp message) obj) as (r' & l & -> & _).
    exact Hs. }
  assert ((for_each (objects st) (Bank.observe (timestamp message)) p).1 = inr tt)
    as Hreturns.
  { apply for_each_returns. intros obj s.
    by destruct (observe_shape s (timestamp message) obj) as (r' & l & -> & _). }
  unfold bind.
  destruct (for_each (objects st) (Bank.observe (timestamp message)) p)
    as [[e|[]] s]; [done|]. split; [done|]. exact Hkept.
Qed.

(** X9.  The zone events of a message never raise.  They leave the
    per-object map, the global average and the zone names as they were, and
    so every tracker whose zone none of the events names. *)
Theorem zone_events_frame {F : Type} `{PyFloat F}
    (message_timestamp : Timestamp) (zone_events : list ZoneEvent)
    (p : Bank.process F) :
  let run := Bank._on_get_output_message
               {| timestamp := message_timestamp;
                  stream := None;
                  event := Some {| zone := zone_events; losing := [] |} |} p in
  run.1 = inr tt ∧
  Bank._residents (Bank.self run.2) = Bank._residents (Bank.self p) ∧
  Bank._resident_avg (Bank.self run.2) = Bank._resident_avg (Bank.self p) ∧
  Bank._zone_info (Bank.self run.2) = Bank._zone_info (Bank.self p) ∧
  ∀ zone_id, zone_id ∉ ze_id <$> zone_events →
             Bank._ATMs (Bank.self run.2) !! zone_id
             = Bank._ATMs (Bank.self p) !! zone_id.
Proof.
  intros run. subst run. unfold Bank._on_get_output_message.
  cbn [stream event zone losing for_each].
  set (keeps := λ s : Bank.process F,
         Bank._residents (Bank.self s) = Bank._residents (Bank.self p) ∧
         Bank._resident_avg (Bank.self s) = Bank._resident_avg (Bank.self p) ∧
         Bank._zone_info (Bank.self s) = Bank._zone_info (Bank.self p) ∧
         ∀ zone_id, zone_id ∉ ze_id <$> zone_events →
                    Bank._ATMs (Bank.self s) !! zone_id
                    = Bank._ATMs (Bank.self p) !! zone_id).
  assert (∀ sub, sub ⊆ zone_events → ∀ s, keeps s →
            keeps (for_each sub Bank.dispatch_zone_event s).2) as Hkept.
  { induction sub as [|zone_event sub IH]; intros Hsub s Hs; [done|].
    cbn [for_each]. unfold bind.
    destruct (zone_event_shape s zone_event) as (atms' & lines & -> & Hother & _).
    apply IH; [set_solver|].
    destruct Hs as (Hres & Havg & Hzone & Hatms). repeat split; try done.
    intros zone_id Hfresh. cbn. rewrite Hother; [by apply Hatms|].
    intros ->. apply Hfresh, list_elem_of_fmap. exists zone_event.
    split; [done|]. apply Hsub, list_elem_of_here. }
  assert ((for_each zone_events Bank.dispatch_zone_event p).1 = inr tt) as Hreturns.
  { apply for_each_returns. intros zone_event s.
    by destruct (zone_event_shape s zone_event) as (a' & l & -> & _). }
  specialize (Hkept zone_events ltac:(done) p ltac:(done)).
  unfold bind, ret. cbn.
  destruct (for_each zone_events Bank.dispatch_zone_event p) as [[e|[]] s];
    [done|]. cbn. split; [done|]. exact Hkept.
Qed.

(** X10.  A message whose stream holds one snapshot, of an object whose
    record is more than 3600 whole seconds old, and whose only event is the
    loss of that object: the stream evicts the record, the loss event finds
    no record, and the handler raises, after the eviction and its line. *)
Theorem evicted_then_lost_raises {F : Type} `{PyFloat F}
    (bank : Bank.t F) (out : list (Line F)) (message_timestamp loss : Timestamp)
    (obj : Object.t) (resident : ResidentPerson.t) :
  Bank._residents bank !! Object.id obj = Some resident →
  3600 < seconds message_timestamp - seconds (ResidentPerson._born_time resident) →
  Bank._on_get_output_message
    {| timestamp := message_timestamp;
       stream := Some {| objects := [obj] |};
       event := Some {| zone := [];
                        losing := [{| le_id := Object.id obj;
                                      le_timestamp := loss |}] |} |}
    {| Bank.self := bank; Bank.stdout := out |}
  = (inl (AttributeError "is_misc"),
     {| Bank.self := Bank.set_residents
                       (delete (Object.id obj) (Bank._residents bank)) bank;
        Bank.stdout := out ++ [TooLong (Object.id obj)] |}).
Proof.
  intros Hres Hlong. unfold Bank._on_get_output_message.
  cbn [stream event zone losing objects for_each le_id le_timestamp timestamp].
  unfold bind at 1. unfold bind at 1.
  rewrite (observe_evicts _ _ _ _ _ Hres Hlong). unfold ret at 1.
  unfold bind at 1. unfold ret at 1. unfold bind at 1.
  rewrite losing_unknown; [done|]. cbn. apply lookup_delete_eq.
Qed.

(** X11.  An object observed again after its eviction is tracked anew: its
    record holds that one snapshot and is born at the time of that message. *)
Theorem reobserved_after_eviction {F : Type} `{PyFloat F}
    (bank : Bank.t F) (out : list (Line F)) (t1 t2 : Timestamp)
    (obj again : Object.t) (resident : ResidentPerson.t) :
  Bank._residents bank !! Object.id obj = Some resident →
  3600 < Bank.time_diff_in_s t1 (ResidentPerson.born_timestamp resident) →
  Object.id again = Object.id obj →
  let evicted := (Bank.observe t1 obj {| Bank.self := bank; Bank.stdout := out |}).2 in
  let run := Bank.observe t2 again evicted in
  run.1 = inr tt ∧
  Bank._residents (Bank.self run.2) !! Object.id obj
  = Some (ResidentPerson.init (Object.id obj) again t2) ∧
  Bank.stdout run.2 = out ++ [TooLong (Object.id obj)].
Proof.
  intros Hres Hlong Hid evicted run. subst run evicted.
  rewrite (observe_evicts _ _ _ _ _ Hres Hlong). cbn [snd].
  rewrite observe_new.
  - cbn. rewrite Hid. split; [done|]. split; [|done]. apply lookup_insert_eq.
  - cbn. rewrite Hid. apply lookup_delete_eq.
Qed.

(** X12.  A loss event that completes prints exactly one line: for a misc
    record the misc line, also when the record is door as well; for a door
    record the door line; otherwise the report with the dwell, the average
    that already counts this dwell, and the name of the starting zone. *)
Theorem loss_report_line {F : Type} `{PyFloat F}
    (bank : Bank.t F) (out : list (Line F)) (obj_id : Z) (timestamp : Timestamp)
    (resident : ResidentPerson.t) (name : string) :
  Bank._residents bank !! obj_id = Some resident →
  match ResidentPerson.starting_zone resident with
  | None => name = "No Zone"%string
  | Some zone_id => Bank._zone_info bank !! zone_id = Some name
  end →
  let dwell :=
    Bank.time_diff_in_s timestamp (ResidentPerson.born_timestamp resident) in
  Bank.stdout (Bank._on_losing_event_handler obj_id timestamp
                 {| Bank.self := bank; Bank.stdout := out |}).2
  = out ++ [if ResidentPerson.is_misc resident then ObjMisc obj_id
            else if ResidentPerson.is_door resident then ObjDoor obj_id
            else ObjResident obj_id dwell
                   (CumulativeAvg.get
                      (CumulativeAvg.update (Bank._resident_avg bank)
                         (f_of_int dwell)))
                   name].
Proof.
  intros Hres Hname dwell.
  destruct (ResidentPerson.is_misc resident || ResidentPerson.is_door resident)
    eqn:Hdisc.
  - rewrite (losing_discarded _ _ _ _ _ Hres Hdisc). cbn [snd Bank.stdout].
    destruct (ResidentPerson.is_misc resident); [done|].
    by rewrite orb_false_l in Hdisc; rewrite Hdisc.
  - rewrite (losing_reported _ _ _ _ _ name Hres Hdisc Hname). cbn [snd Bank.stdout].
    by apply orb_false_elim in Hdisc as [-> ->].
Qed.

(** X13.  When the first loss event of a message names an object that has
    no record once the stream and the zone events of the message are
    handled, the handler raises at that event: the loss events after it are
    not processed, and the bank and the console are left as the stream and
    the zone events of the message left them. *)
Theorem loss_events_abort {F : Type} `{PyFloat F}
    (message : OutputMessage) (p : Bank.process F) (ev : EventMessage)
    (first : LosingEvent) (later : list LosingEvent) :
  event message = Some ev →
  losing ev = first :: later →
  Bank._residents
    (Bank.self (Bank._on_get_output_message (without_losing message) p).2)
    !! le_id first = None →
  (Bank._on_get_output_message (without_losing message) p).1 = inr tt ∧
  Bank._on_get_output_message message p
  = (inl (AttributeError "is_misc"),
     (Bank._on_get_output_message (without_losing message) p).2).
Proof.
  intros Hevent Hlosing. unfold Bank._on_get_output_message, without_losing.
  cbn [stream event timestamp]. rewrite Hevent.
  cbn [fmap option_fmap option_map zone losing].
  rewrite Hlosing. cbn [for_each].
  set (stream_part := match stream message with
                      | Some st => for_each (objects st)
                                     (Bank.observe (timestamp message))
                      | None => ret tt
                      end).
  assert ((stream_part p).1 = inr tt) as Hstream.
  { subst stream_part. destruct (stream message) as [st|]; [|done].
    apply for_each_returns. intros obj s.
    by destruct (observe_shape s (timestamp message) obj) as (r & l & -> & _). }
  unfold bind, ret. destruct (stream_part p) as [[e|[]] p1]; [done|].
  assert ((for_each (zone ev) Bank.dispatch_zone_event p1).1 = inr tt) as Hzone.
  { apply for_each_returns. intros zone_event s.
    by destruct (zone_event_shape s zone_event) as (a & l & -> & _). }
  destruct (for_each (zone ev) Bank.dispatch_zone_event p1) as [[e|[]] p2]; [done|].
  cbn [fst snd]. intros Hnone. split; [done|]. by rewrite losing_unknown.
Qed.

(** X14.  A second loss event for an object whose first loss event
    completed raises: the first one removed the record. *)
Theorem duplicate_loss_raises {F : Type} `{PyFloat F}
    (p : Bank.process F) (obj_id : Z) (t1 t2 : Timestamp) :
  (Bank._on_losing_event_handler obj_id t1 p).1 = inr tt →
  Bank._on_losing_event_handler obj_id t2
    (Bank._on_losing_event_handler obj_id t1 p).2
  = (inl (AttributeError "is_misc"),
     (Bank._on_losing_event_handler obj_id t1 p).2).
Proof.
  intros Hfirst. apply losing_unknown. destruct p as [bank out].
  destruct (Bank._residents bank !! obj_id) as [resident|] eqn:Hres.
  - destruct (ResidentPerson.is_misc resident || ResidentPerson.is_door resident)
      eqn:Hdisc.
    + rewrite (losing_discarded _ _ _ _ _ Hres Hdisc). cbn. apply lookup_delete_eq.
    + destruct (ResidentPerson.starting_zone resident) as [zone_id|] eqn:Hzone.
      * destruct (Bank._zone_info bank !! zone_id) as [name|] eqn:Hname.
        -- rewrite (losing_reported _ _ _ _ _ name Hres Hdisc) by by rewrite Hzone.
           cbn. apply lookup_delete_eq.
        -- by rewrite (losing_unresolved_zone _ _ _ _ _ _ Hres Hdisc Hzone Hname)
             in Hfirst.
      * rewrite (losing_reported _ _ _ _ _ "No Zone" Hres Hdisc) by by rewrite Hzone.
        cbn. apply lookup_delete_eq.
  - by rewrite losing_unknown in Hfirst.
Qed.

(** ** The REST client *)

Section Rest.
Import RESTAPI.

Lemma handle_request_normal (self : t) (resource : string)
    (rest_cmd : string → gmap string value → Response)
    (kargs : gmap string value) :
  let scheme := if ssl_on kargs then "https"%string else "http"%string in
  let url := (scheme +:+ "://" +:+ _address self +:+ ":9080/" +:+ resource)%string in
  let response :=
    rest_cmd url (base.delete "check_response"%string
                    (base.delete "ssl"%string kargs)) in
  _handle_request self resource rest_cmd kargs
  = if checked kargs && negb (status_code response =? 200)
    then {| printed := [text response; "##Fail##"%string];
            ended := SystemExit 1 |}
    else {| printed := []; ended := Returned response |}.
Proof.
  intros scheme url response. unfold _handle_request, _response_checker.
  assert (truth (if is_None (get kargs "ssl") then VBool false
                 else get kargs "ssl") = ssl_on kargs) as ->.
  { unfold get, ssl_on. by destruct (kargs !! "ssl"%string) as [[]|]. }
  assert (truth (if is_None (get (base.delete "ssl"%string kargs) "check_response")
                 then VBool true
                 else get (base.delete "ssl"%string kargs) "check_response")
          = checked kargs) as ->.
  { unfold get, checked. rewrite lookup_delete_ne by done.
    by destruct (kargs !! "check_response"%string) as [[]|]. }
  fold scheme. fold url. fold response.
  destruct (checked kargs); [|done].
  by destruct (negb (status_code response =? 200)).
Qed.
End Rest.

(** X15.  A GET request of a fresh client goes to
    [http(s)://address:9080/resource], over https exactly when the caller
    passed a true [ssl].  The library is called without the keywords [ssl]
    and [check_response] and with [verify] set to [False].  An answer whose
    status is not 200 prints the body and "##Fail##" and ends the process
    with exit code 1, unless the caller passed a false [check_response];
    every other answer is returned and nothing is printed. *)
Theorem get_request_contract (requests : RESTAPI.Requests)
    (address resource : string) (kargs : gmap string RESTAPI.value) :
  let scheme := if ssl_on kargs then "https"%string else "http"%string in
  let url := (scheme +:+ "://" +:+ address +:+ ":9080/" +:+ resource)%string in
  let passed := <["verify"%string := RESTAPI.VBool false]>
                  (delete "check_response"%string (delete "ssl"%string kargs)) in
  let response := RESTAPI.get_ requests url passed in
  passed !! "ssl"%string = None ∧
  passed !! "check_response"%string = None ∧
  passed !! "verify"%string = Some (RESTAPI.VBool false) ∧
  RESTAPI.get_request requests (RESTAPI.init address) resource kargs
  = if checked kargs && negb (RESTAPI.status_code response =? 200)
    then {| RESTAPI.printed := [RESTAPI.text response; "##Fail##"%string];
            RESTAPI.ended := RESTAPI.SystemExit 1 |}
    else {| RESTAPI.printed := []; RESTAPI.ended := RESTAPI.Returned response |}.
Proof.
  intros scheme url passed response. subst passed.
  split; [by rewrite lookup_insert_ne, lookup_delete_ne, lookup_delete_eq|].
  split; [by rewrite lookup_insert_ne, lookup_delete_eq|].
  split; [by rewrite lookup_insert_eq|].
  unfold RESTAPI.get_request. rewrite handle_request_normal.
  cbn [RESTAPI.init RESTAPI._server_cert_file_path RESTAPI._address].
  assert (ssl_on (<["verify"%string := RESTAPI.VBool false]> kargs) = ssl_on kargs)
    as -> by (unfold ssl_on; by rewrite lookup_insert_ne).
  assert (checked (<["verify"%string := RESTAPI.VBool false]> kargs) = checked kargs)
    as -> by (unfold checked; by rewrite lookup_insert_ne).
  by rewrite !delete_insert_ne by done.
Qed.

(** X16.  A [verify] keyword of the caller never reaches the library: each
    of the four request methods overwrites it, so a request with it is the
    request without it. *)
Theorem caller_verify_ignored (requests : RESTAPI.Requests) (self : RESTAPI.t)
    (resource : string) (kargs : gmap string RESTAPI.value) (v : RESTAPI.value) :
  RESTAPI.get_request requests self resource (<["verify"%string := v]> kargs)
  = RESTAPI.get_request requests self resource kargs ∧
  RESTAPI.put_request requests self resource (<["verify"%string := v]> kargs)
  = RESTAPI.put_request requests self resource kargs ∧
  RESTAPI.post_request requests self resource (<["verify"%string := v]> kargs)
  = RESTAPI.post_request requests self resource kargs ∧
  RESTAPI.delete_request requests self resource (<["verify"%string := v]> kargs)
  = RESTAPI.delete_request requests self resource kargs.
Proof.
  unfold RESTAPI.get_request, RESTAPI.put_request, RESTAPI.post_request,
    RESTAPI.delete_request.
  by rewrite insert_insert_eq.
Qed.

(** ** The further properties on sample runs *)

Lemma enter_exit_round_trip_witness :
  ATM._residents (ATM.init (F:=float) 1007) !! 5 = None ∧
  ATM._residents
    (ATM.on_exit (ATM.on_enter (ATM.init (F:=float) 1007) 5 (Sample.at_second 0))
       5 (Sample.at_second 7)).1
  = ATM._residents (ATM.init (F:=float) 1007).
Proof.
  assert (ATM._residents (ATM.init (F:=float) 1007) !! 5 = None) as Hfree
    by (vm_compute; reflexivity).
  split; [exact Hfree|].
  exact (proj1 (enter_exit_round_trip (ATM.init 1007) 5 (Sample.at_second 0)
                  (Sample.at_second 7) Hfree)).
Defined.

Lemma tracker_events_frame_witness :
  (6 : Z) ≠ 5 ∧
  ATM._residents (ATM.on_exit Sample.atm_pending 6 (Sample.at_second 7)).1 !! 5
  = ATM._residents Sample.atm_pending !! 5.
Proof.
  assert ((5 : Z) ≠ 6) as Hne by lia.
  split; [lia|].
  exact (proj1 (proj2 (tracker_events_frame Sample.atm_pending 6 5
                         (Sample.at_second 7) Hne))).
Defined.

Lemma reachable_well_keyed_witness :
  reachable Sample.zone_names Sample.start ∧
  well_keyed Sample.zone_names (Bank.self Sample.start).
Proof.
  assert (reachable Sample.zone_names Sample.start) as Hreach
    by exact (reachable_init Sample.zone_names).
  split; [exact Hreach|].
  exact (proj1 (reachable_well_keyed Sample.zone_names Sample.start Hreach)).
Defined.

Lemma stream_part_safe_witness :
  event (Sample.stream_message 10 [Sample.person 1 [7]]) = None ∧
  (Bank._on_get_output_message (Sample.stream_message 10 [Sample.person 1 [7]])
     Sample.start).1 = inr tt.
Proof.
  assert (event (Sample.stream_message 10 [Sample.person 1 [7]]) = None) as Hevent
    by reflexivity.
  split; [exact Hevent|].
  exact (proj1 (stream_part_safe _ Sample.start Hevent)).
Defined.

Lemma zone_events_frame_witness :
  Bank._ATMs
    (Bank.self (Bank._on_get_output_message
                  (Sample.zone_message (Sample.at_second 0) ENTRY 1007 5)
                  Sample.start).2) !! 1008
  = Bank._ATMs (Bank.self Sample.start) !! 1008.
Proof.
  pose proof (zone_events_frame (Sample.at_second 0)
                [{| ze_type := ENTRY; ze_id := 1007; ze_object_id := 5;
                    ze_timestamp := Sample.at_second 0 |}] Sample.start)
    as (_ & _ & _ & _ & Hframe).
  apply Hframe. intros Hin. apply list_elem_of_In in Hin.
  cbn in Hin. destruct Hin as [Heq|[]]. discriminate Heq.
Defined.

Lemma evicted_then_lost_raises_witness :
  Bank._residents (Bank.self (Sample.bank_with Sample.lobby_record))
    !! Object.id (Sample.person 1 [7]) = Some Sample.lobby_record ∧
  (Bank._on_get_output_message
     {| timestamp := Sample.at_second 3700;
        stream := Some {| objects := [Sample.person 1 [7]] |};
        event := Some {| zone := [];
                         losing := [{| le_id := Object.id (Sample.person 1 [7]);
                                       le_timestamp := Sample.at_second 3700 |}] |} |}
     (Sample.bank_with Sample.lobby_record)).1
  = inl (AttributeError "is_misc").
Proof.
  assert (Bank._residents (Bank.self (Sample.bank_with Sample.lobby_record))
            !! Object.id (Sample.person 1 [7]) = Some Sample.lobby_record)
    as Hres by (vm_compute; reflexivity).
  split; [exact Hres|].
  rewrite (evicted_then_lost_raises _ [] (Sample.at_second 3700)
             (Sample.at_second 3700) (Sample.person 1 [7]) Sample.lobby_record Hres);
    [reflexivity|].
  vm_compute. reflexivity.
Defined.

Lemma reobserved_after_eviction_witness :
  Bank._residents (Bank.self (Sample.bank_with Sample.lobby_record))
    !! Object.id (Sample.person 1 [7]) = Some Sample.lobby_record ∧
  Bank._residents
    (Bank.self
       (Bank.observe (Sample.at_second 3701) (Sample.person 1 [1007])
          (Bank.observe (Sample.at_second 3700) (Sample.person 1 [7])
             (Sample.bank_with Sample.lobby_record)).2).2)
    !! Object.id (Sample.person 1 [7])
  = Some (ResidentPerson.init 1 (Sample.person 1 [1007]) (Sample.at_second 3701)).
Proof.
  assert (Bank._residents (Bank.self (Sample.bank_with Sample.lobby_record))
            !! Object.id (Sample.person 1 [7]) = Some Sample.lobby_record)
    as Hres by (vm_compute; reflexivity).
  split; [exact Hres|].
  pose proof (reobserved_after_eviction _ [] (Sample.at_second 3700)
                (Sample.at_second 3701) (Sample.person 1 [7])
                (Sample.person 1 [1007]) Sample.lobby_record Hres) as Hagain.
  destruct Hagain as (_ & Hrecord & _).
  - vm_compute. reflexivity.
  - reflexivity.
  - exact Hrecord.
Defined.

Lemma loss_report_line_witness :
  Bank._residents (Bank.self (Sample.bank_with Sample.lobby_record)) !! 1
  = Some Sample.lobby_record ∧
  Bank.stdout (Bank._on_losing_event_handler 1 (Sample.at_second 40)
                 (Sample.bank_with Sample.lobby_record)).2
  = [ObjResident 1 30 30%float "Lobby"].
Proof.
  assert (Bank._residents (Bank.self (Sample.bank_with Sample.lobby_record)) !! 1
          = Some Sample.lobby_record) as Hres by (vm_compute; reflexivity).
  split; [exact Hres|].
  rewrite (loss_report_line _ [] 1 (Sample.at_second 40) Sample.lobby_record
             "Lobby" Hres); vm_compute; reflexivity.
Defined.

Lemma loss_events_abort_witness :
  Bank._residents
    (Bank.self
       (Bank._on_get_output_message
          (without_losing
             {| timestamp := Sample.at_second 40;
                stream := Some {| objects := [Sample.person 1 [7]] |};
                event := Some {| zone := [];
                                 losing := [{| le_id := 9;
                                               le_timestamp := Sample.at_second 40 |};
                                            {| le_id := 1;
                                               le_timestamp := Sample.at_second 40 |}]
                              |} |})
          Sample.start).2) !! 9 = None ∧
  (Bank._on_get_output_message
     {| timestamp := Sample.at_second 40;
        stream := Some {| objects := [Sample.person 1 [7]] |};
        event := Some {| zone := [];
                         losing := [{| le_id := 9;
                                       le_timestamp := Sample.at_second 40 |};
                                    {| le_id := 1;
                                       le_timestamp := Sample.at_second 40 |}] |} |}
     Sample.start).1 = inl (AttributeError "is_misc") ∧
  Bank._residents
    (Bank.self
       (Bank._on_get_output_message
          {| timestamp := Sample.at_second 40;
             stream := Some {| objects := [Sample.person 1 [7]] |};
             event := Some {| zone := [];
                              losing := [{| le_id := 9;
                                            le_timestamp := Sample.at_second 40 |};
                                         {| le_id := 1;
                                            le_timestamp := Sample.at_second 40 |}]
                           |} |}
          Sample.start).2) !! 1
  = Some (ResidentPerson.init 1 (Sample.person 1 [7]) (Sample.at_second 40)).
Proof.
  set (message :=
         {| timestamp := Sample.at_second 40;
            stream := Some {| objects := [Sample.person 1 [7]] |};
            event := Some {| zone := [];
                             losing := [{| le_id := 9;
                                           le_timestamp := Sample.at_second 40 |};
                                        {| le_id := 1;
                                           le_timestamp := Sample.at_second 40 |}]
                          |} |}).
  assert (Bank._residents
            (Bank.self (Bank._on_get_output_message (without_losing message)
                          Sample.start).2) !! 9 = None) as Hnone
    by (vm_compute; reflexivity).
  split; [exact Hnone|].
  destruct (loss_events_abort message Sample.start _
              {| le_id := 9; le_timestamp := Sample.at_second 40 |} _
              eq_refl eq_refl Hnone) as (_ & ->).
  split; [reflexivity|]. vm_compute. reflexivity.
Defined.

Lemma duplicate_loss_raises_witness :
  (Bank._on_losing_event_handler 1 (Sample.at_second 40)
     (Sample.bank_with Sample.lobby_record)).1 = inr tt ∧
  (Bank._on_losing_event_handler 1 (Sample.at_second 41)
     (Bank._on_losing_event_handler 1 (Sample.at_second 40)
        (Sample.bank_with Sample.lobby_record)).2).1
  = inl (AttributeError "is_misc").
Proof.
  assert ((Bank._on_losing_event_handler 1 (Sample.at_second 40)
             (Sample.bank_with Sample.lobby_record)).1 = inr tt) as Hfirst
    by (vm_compute; reflexivity).
  split; [exact Hfirst|].
  by rewrite (duplicate_loss_raises (Sample.bank_with Sample.lobby_record) 1
                (Sample.at_second 40) (Sample.at_second 41) Hfirst).
Defined.

(** The zone list is fetched over http; over https the sample server
    answers 404, which ends the process unless the check is switched off. *)
Example rest_fetch_zones :
  RESTAPI.get_request SampleRest.library (RESTAPI.init "localhost")
    "settings/zone" ∅
  = {| RESTAPI.printed := [];
       RESTAPI.ended := RESTAPI.Returned
                          {| RESTAPI.status_code := 200; RESTAPI.text := "[1007]" |} |}.
Proof. vm_compute. reflexivity. Qed.

Example rest_failure_exits :
  RESTAPI.get_request SampleRest.library (RESTAPI.init "localhost")
    "settings/zone" {[ "ssl"%string := RESTAPI.VBool true ]}
  = {| RESTAPI.printed := ["Not Found"%string; "##Fail##"%string];
       RESTAPI.ended := RESTAPI.SystemExit 1 |}.
Proof. vm_compute. reflexivity. Qed.

Example rest_failure_unchecked :
  RESTAPI.get_request SampleRest.library (RESTAPI.init "localhost")
    "settings/zone"
    {[ "ssl"%string := RESTAPI.VBool true;
       "check_response"%string := RESTAPI.VBool false ]}
  = {| RESTAPI.printed := [];
       RESTAPI.ended := RESTAPI.Returned
                          {| RESTAPI.status_code := 404;
                             RESTAPI.text := "Not Found" |} |}.
Proof. vm_compute. reflexivity. Qed.

(** A record created in zone 0 and seen in no zone, in zone 0 again, in
    zone 4 and in zone 5 starts in zone 4. *)
Example starting_zone_sample :
  ResidentPerson.starting_zone
    (fold_left ResidentPerson.push_history
       [Sample.person 1 []; Sample.person 1 [0; 3]; Sample.person 1 [4];
        Sample.person 1 [5]]
       (ResidentPerson.init 1 (Sample.person 1 [0]) (Sample.at_second 10)))
  = Some 4.
Proof. vm_compute. reflexivity. Qed.
